(** * ec2train.py: the fine-tuning script, embedded and verified

    The script trains the replaced classifier head of a pretrained ResNet-50,
    evaluates it and saves the weights.  This development embeds:

    - [train_in], [test_in]: [train] and [test] as explicit state passing
      over a [world] (the Parameter objects of the model, its buffers and
      mode flag, the optimizer's statistics, and the chronological list of
      calls and log lines), with Python exceptions as [Raise];
    - [net]: the parameter store and the layer list of the new head, and
      [main_optimizer], the optimizer that [main] builds over it;
    - [create_data_loaders]: the three loader descriptions;
    - [build_parser], [parse_args]: the entry block's argument handling;
    - [main_in], [script]: [main] and the script as a whole, over the
      libraries a run meets ([create_data_loaders_run] and [net_run] are the
      two factories as [main] executes them).

    PyTorch, torchvision and argparse are libraries, not part of the script:
    what they compute is taken through the [Torch] interface or as function
    arguments.  Python floats are binary64 ([PrimFloat]); the float32 tensor
    produced by dividing an integer tensor is a [spec_float] at precision 24. *)

From Stdlib Require Import ZArith Floats SpecFloat.
From stdpp Require Import gmap strings list pretty.

(* Decimal literals such as 0.1 denote the nearest binary64 value, as in Python. *)
Set Warnings "-inexact-float,-register-all".

(** ** Python: exceptions, name resolution, numbers *)

Inductive exn : Type :=
| NameError (name : string)
| KeyError (key : string)
| ZeroDivisionError
| RuntimeError (msg : string).

Inductive outcome (A : Type) : Type :=
| Ret (a : A)
| Raise (e : exn).
Arguments Ret {A} a.
Arguments Raise {A} e.

(** The names bound in the module's namespace once the file has been
    executed as a script: lines 1-15 (imports), 18 ([logger]), the five
    [def]s, and lines 173 and 180 ([parser], [args]). *)
Definition module_globals : gset string :=
  list_to_set
    [ "np"; "torch"; "nn"; "optim"; "torchvision"; "models"; "transforms";
      "copy"; "argparse"; "os"; "logging"; "sys"; "tqdm"; "ImageFile";
      "logger"; "train"; "test"; "net"; "create_data_loaders"; "main";
      "parser"; "args" ].

(** Python's built-in functions, searched after the module namespace.  (The
    built-in constants and exception classes are searched too; the script
    reads none of them by name.) *)
Definition builtins : gset string :=
  list_to_set
    [ "abs"; "aiter"; "all"; "anext"; "any"; "ascii"; "bin"; "bool";
      "breakpoint"; "bytearray"; "bytes"; "callable"; "chr"; "classmethod";
      "compile"; "complex"; "delattr"; "dict"; "dir"; "divmod"; "enumerate";
      "eval"; "exec"; "filter"; "float"; "format"; "frozenset"; "getattr";
      "globals"; "hasattr"; "hash"; "help"; "hex"; "id"; "input"; "int";
      "isinstance"; "issubclass"; "iter"; "len"; "list"; "locals"; "map";
      "max"; "memoryview"; "min"; "next"; "object"; "oct"; "open"; "ord";
      "pow"; "print"; "property"; "range"; "repr"; "reversed"; "round";
      "set"; "setattr"; "slice"; "sorted"; "staticmethod"; "str"; "sum";
      "super"; "tuple"; "type"; "vars"; "zip"; "__import__" ].

(** Reading a global name: the module namespace [G], then the built-ins. *)
Definition bound (G : gset string) (name : string) : bool :=
  bool_decide (name ∈ G ∪ builtins).

(** [float(z)] for a Python int, correctly rounded. *)
Definition float_of_Z (z : Z) : float :=
  SF2Prim (binary_normalize 53 1024 z 0 false).

(** Arithmetic on int64 tensors wraps around. *)
Definition wrap64 (z : Z) : Z := ((z + 2 ^ 63) `mod` 2 ^ 64 - 2 ^ 63)%Z.

(** float32: what [int64 tensor / int] yields under the default dtype. *)
Definition f32_of_Z (z : Z) : spec_float := binary_normalize 24 128 z 0 false.
Definition f32_div (x y : spec_float) : spec_float := SFdiv 24 128 x y.

(** ** What the script calls and prints *)

Inductive phase : Type := train_phase | valid_phase.

Inductive event : Type :=
| EvTrainMode                       (* model.train() *)
| EvEvalMode                        (* model.eval() *)
| EvZeroGrad                        (* optimizer.zero_grad() *)
| EvBackward                        (* loss.backward() *)
| EvStep                            (* optimizer.step() *)
| EvRecord (pos train_loss : float) (* log.record(pos=.., train_loss=..) *)
| EvInfo (ph : phase) (epoch_loss : float) (epoch_acc : spec_float)
         (best_loss : float)        (* logger.info, line 68 *)
| EvTestLoss (total_loss : float)   (* logger.info, line 95 *)
| EvTestAcc (total_acc : float).    (* logger.info, line 96 *)

(** ** Layers of a classifier head

    Of an activation only its last dimension is kept: a linear layer accepts
    an input whose width is its [in_features] and raises otherwise, a ReLU
    keeps the width.  [nn.Sequential] feeds each module the previous output. *)
Inductive layer : Type :=
| Linear (in_features out_features : Z)
| ReLU.

Definition layer_forward (l : layer) (width : Z) : outcome Z :=
  match l with
  | Linear i o =>
      if (width =? i)%Z then Ret o
      else Raise (RuntimeError "mat1 and mat2 shapes cannot be multiplied")
  | ReLU => Ret width
  end.

Fixpoint sequential_forward (ls : list layer) (width : Z) : outcome Z :=
  match ls with
  | [] => Ret width
  | l :: ls' =>
      match layer_forward l width with
      | Ret w => sequential_forward ls' w
      | Raise e => Raise e
      end
  end.

(** The width each module is called with, up to and including the module
    that raises. *)
Fixpoint arriving (ls : list layer) (width : Z) : list Z :=
  match ls with
  | [] => []
  | l :: ls' =>
      width :: match layer_forward l width with
               | Ret w => arriving ls' w
               | Raise _ => []
               end
  end.

(** [state_dict] keys of the parameters of module [i] of [model.fc]. *)
Definition layer_keys (i : nat) (l : layer) : list string :=
  match l with
  | Linear _ _ => [ "fc." +:+ pretty i +:+ ".weight";
                    "fc." +:+ pretty i +:+ ".bias" ]
  | ReLU => []
  end.

Definition sequential_keys (ls : list layer) : list string :=
  concat (imap layer_keys ls).

Definition under_fc (k : string) : bool := String.prefix "fc." k.

(** ** The library interface

    [call_model] is [model(inputs)]: it reads the parameter values, the
    buffers and the mode flag, and may replace the buffers (batch-norm
    statistics in training mode).  A [loss] carries its value ([item]) and,
    per parameter name, the gradient that [backward] would deposit, or an
    error when the graph has nothing to differentiate.  [update] is the
    optimizer's rule for one parameter. *)
Class Torch : Type := {
  inputs : Type;
  labels : Type;
  outputs : Type;
  preds : Type;
  loss : Type;
  tensor : Type;
  buffers : Type;
  slot : Type;
  device : Type;
  inputs_to : device → inputs → inputs;
  labels_to : device → labels → labels;
  size0 : inputs → Z;
  call_model : bool → gmap string tensor → buffers → inputs →
               outcome outputs * buffers;
  item : loss → float;
  loss_grad : loss → outcome (string → option tensor);
  accumulate : option tensor → tensor → tensor;
  torch_max1 : outputs → preds;
  count_eq : preds → labels → Z;
  update : option slot → tensor → tensor → tensor * slot;
}.

Section Script.
Context `{T : Torch}.

(** A [torch.nn.Parameter]. *)
Record parameter : Type := MkParameter {
  data : tensor;
  requires_grad : bool;
  grad : option tensor;
}.

Definition set_data (v : tensor) (p : parameter) : parameter :=
  MkParameter v (requires_grad p) (grad p).
Definition set_requires_grad (b : bool) (p : parameter) : parameter :=
  MkParameter (data p) b (grad p).
Definition set_grad (g : option tensor) (p : parameter) : parameter :=
  MkParameter (data p) (requires_grad p) g.

(** The objects the script mutates, keyed as [state_dict] keys them.  The
    model and the optimizer refer to the same Parameter objects, so one
    store serves both. *)
Record world : Type := World {
  params : gmap string parameter;
  bufs : buffers;
  training : bool;
  opt_state : gmap string slot;
  calls : list event;
}.

Definition M (A : Type) : Type := world → outcome A * world.

#[global] Instance M_ret : MRet M := λ A a w, (Ret a, w).
#[global] Instance M_bind : MBind M := λ A B f m w,
  match m w with
  | (Ret a, w') => f a w'
  | (Raise e, w') => (Raise e, w')
  end.

Definition raise {A} (e : exn) : M A := λ w, (Raise e, w).
Definition lift {A} (o : outcome A) : M A := λ w, (o, w).
Definition modify (f : world → world) : M unit := λ w, (Ret tt, f w).
Definition emit (e : event) : M unit :=
  modify (λ w, World (params w) (bufs w) (training w) (opt_state w)
                     (calls w ++ [e])).
Definition resolve (G : gset string) (name : string) : M unit :=
  if bound G name then mret tt else raise (NameError name).

Fixpoint for_enumerate {A B} (body : nat → A → B → M B)
    (pos : nat) (l : list A) (s : B) : M B :=
  match l with
  | [] => mret s
  | x :: l' => s' ← body pos x s; for_enumerate body (S pos) l' s'
  end.

(** *** Calls on the model and the optimizer *)

Definition set_mode (b : bool) : M unit :=
  modify (λ w, World (params w) (bufs w) b (opt_state w) (calls w));;
  emit (if b then EvTrainMode else EvEvalMode).

Definition model_call (x : inputs) : M outputs := λ w,
  let '(o, b') := call_model (training w) (data <$> params w) (bufs w) x in
  (o, World (params w) b' (training w) (opt_state w) (calls w)).

(** An optimizer is the list of the Parameter objects it was given.
    [zero_grad] resets their gradients to [None]; [step] updates those that
    have a gradient. *)
Definition optimizer : Type := list string.

Definition zero_grad (opt : optimizer) : M unit :=
  modify (λ w, World (foldl (λ ps k, alter (set_grad None) k ps) (params w) opt)
                     (bufs w) (training w) (opt_state w) (calls w));;
  emit EvZeroGrad.

Definition backward (l : loss) : M unit :=
  g ← lift (loss_grad l);
  modify (λ w, World
    (map_imap (λ k p,
       Some (if requires_grad p
             then match g k with
                  | Some d => set_grad (Some (accumulate (grad p) d)) p
                  | None => p
                  end
             else p)) (params w))
    (bufs w) (training w) (opt_state w) (calls w));;
  emit EvBackward.

Definition step_one (w : world) (k : string) : world :=
  match params w !! k with
  | Some p =>
      match grad p with
      | Some g =>
          let '(v, s) := update (opt_state w !! k) (data p) g in
          World (<[k := set_data v p]> (params w)) (bufs w) (training w)
                (<[k := s]> (opt_state w)) (calls w)
      | None => w
      end
  | None => w
  end.

Definition step (opt : optimizer) : M unit :=
  modify (λ w, foldl step_one w opt);;
  emit EvStep.

(** *** [net], lines 99-113

    [models.resnet50(pretrained=True)] is given: its Parameter objects, its
    buffers and the [in_features] of its own [fc].  Assigning [model.fc]
    drops every parameter registered under ["fc."] and registers those of
    the new modules, whose initial values [init] supplies. *)
Record pretrained : Type := Pretrained {
  pre_params : gmap string parameter;
  pre_bufs : buffers;
  fc_in_features : Z;
}.

Record model : Type := Model {
  m_params : gmap string parameter;
  m_bufs : buffers;
  fc : list layer;
}.

Definition net (resnet50 : pretrained) (init : string → tensor) : model :=
  let frozen := set_requires_grad false <$> pre_params resnet50 in
  let n_features := fc_in_features resnet50 in
  let head :=
    [ Linear n_features 128; ReLU; Linear 128 32; ReLU; Linear 128 5 ] in
  Model
    (foldr (λ k ps, <[k := MkParameter (init k) true None]> ps)
           (filter (λ kp, under_fc kp.1 = false) frozen)
           (sequential_keys head))
    (pre_bufs resnet50)
    head.

(** Line 160: [optim.Adam(model.fc.parameters(), lr=learning_rate)]. *)
Definition main_optimizer (m : model) : optimizer := sequential_keys (fc m).

(** The [world] that [main] has built when it reaches line 163: a module
    starts in training mode and a new optimizer has no statistics. *)
Definition main_world (m : model) : world :=
  World (m_params m) (m_bufs m) true ∅ [].

(** *** [train], lines 23-77 *)

Definition criterion : Type := outputs → labels → outcome loss.
Definition loader : Type := list (inputs * labels).

(** [best_loss] and [loss_counter], the two locals that outlive an epoch. *)
Record tracker : Type := Tracker {
  best_loss : float;
  loss_counter : Z;
}.

(** The locals a phase has computed when line 56 is done. *)
Record metrics : Type := Metrics {
  running_loss : float;
  running_corrects : Z;
  epoch_loss : float;
  epoch_acc : spec_float;
}.

Definition image_dataset (train_loader validation_loader : loader)
    (ph : phase) : loader :=
  match ph with
  | train_phase => train_loader
  | valid_phase => validation_loader
  end.

(** Lines 39-53, one batch.  [(pos+1)/tot] divides two ints; below 2^53
    that is the float quotient of their conversions. *)
Definition batch_body (G : gset string) (ph : phase) (crit : criterion)
    (opt : optimizer) (dev : device) (tot : nat)
    (pos : nat) (b : inputs * labels) (acc : float * Z) : M (float * Z) :=
  let inputs := inputs_to dev b.1 in
  let labels := labels_to dev b.2 in
  outputs ← model_call inputs;
  l ← lift (crit outputs labels);
  match ph with
  | train_phase =>
      zero_grad opt;;
      backward l;;
      emit (EvRecord (float_of_Z (Z.of_nat pos + 1) / float_of_Z (Z.of_nat tot))
                     (item l));;
      step opt
  | valid_phase => mret tt
  end;;
  resolve G "torch";;
  let preds := torch_max1 outputs in
  let running_loss := (acc.1 + item l * float_of_Z (size0 inputs))%float in
  resolve G "torch";;
  let running_corrects := wrap64 (acc.2 + count_eq preds labels) in
  mret (running_loss, running_corrects).


(** Lines 31-56: mode, the batch loop, the two quotients.  Dividing the
    float [running_loss] by a zero [len] raises. *)
Definition phase_metrics (G : gset string) (train_loader validation_loader : loader)
    (crit : criterion) (opt : optimizer) (dev : device) (ph : phase) : M metrics :=
  set_mode (match ph with train_phase => true | valid_phase => false end);;
  let ds := image_dataset train_loader validation_loader ph in
  acc ← for_enumerate (batch_body G ph crit opt dev (length ds)) 0 ds
                      (0%float, 0%Z);
  match length ds with
  | O => raise ZeroDivisionError
  | S _ =>
      mret (Metrics acc.1 acc.2
              (acc.1 / float_of_Z (Z.of_nat (length ds)))
              (f32_div (f32_of_Z acc.2) (f32_of_Z (Z.of_nat (length ds)))))
  end.

(** Lines 59-62. *)
Definition update_tracker (el : float) (t : tracker) : tracker :=
  if PrimFloat.ltb el (best_loss t)
  then Tracker el (loss_counter t)
  else Tracker (best_loss t) (loss_counter t + 1).

(** Lines 63-71: the second pass over the validation loader, which only
    logs.  Its inputs are not moved to the device. *)
Definition log_pass (G : gset string) (ds : loader) (crit : criterion)
    (ph : phase) (m : metrics) (t : tracker) : M unit :=
  resolve G "torch";;
  for_enumerate (λ _ b _,
      outputs ← model_call b.1;
      _ ← lift (crit outputs b.2);
      resolve G "logger";;
      emit (EvInfo ph (epoch_loss m) (epoch_acc m) (best_loss t)))
    0 ds tt.

(** Lines 31-71, the body of [for phase in ['train', 'valid']]. *)
Definition phase_body (G : gset string) (train_loader validation_loader : loader)
    (crit : criterion) (opt : optimizer) (dev : device)
    (ph : phase) (t : tracker) : M tracker :=
  m ← phase_metrics G train_loader validation_loader crit opt dev ph;
  match ph with
  | valid_phase =>
      let t' := update_tracker (epoch_loss m) t in
      log_pass G (image_dataset train_loader validation_loader ph) crit ph m t';;
      mret t'
  | train_phase => mret t
  end.

(** Lines 30-71. *)
Definition epoch_body (G : gset string) (train_loader validation_loader : loader)
    (crit : criterion) (opt : optimizer) (dev : device) (t : tracker) : M tracker :=
  t1 ← phase_body G train_loader validation_loader crit opt dev train_phase t;
  phase_body G train_loader validation_loader crit opt dev valid_phase t1.

(** Lines 29-76, [for epoch in ...] with its two [break]s. *)
Fixpoint epoch_loop (G : gset string) (train_loader validation_loader : loader)
    (crit : criterion) (opt : optimizer) (dev : device)
    (es : list nat) (t : tracker) : M tracker :=
  match es with
  | [] => mret t
  | epoch :: es' =>
      t' ← epoch_body G train_loader validation_loader crit opt dev t;
      if (loss_counter t' =? 1)%Z then mret t'
      else if (epoch =? 0)%nat then mret t'
      else epoch_loop G train_loader validation_loader crit opt dev es' t'
  end.

Definition range (n : Z) : list nat := seq 0 (Z.to_nat n).

(** Lines 23-77.  When [Report] resolves it is taken to build the progress
    recorder whose [record] only prints.  The model is the one in the
    [world]; returning it returns nothing new. *)
Definition train_in (G : gset string) (train_loader validation_loader : loader)
    (crit : criterion) (opt : optimizer) (epochs : Z) (dev : device) : M unit :=
  let best_loss := 1e6%float in
  let loss_counter := 0%Z in
  resolve G "Report";;
  epoch_loop G train_loader validation_loader crit opt dev (range epochs)
             (Tracker best_loss loss_counter);;
  mret tt.

(** *** [test], lines 79-96.  [running_loss] starts as the int 0, and
    [0 + x] is [x] converted; [0.0 + x] is the same float. *)

(** Lines 85-91, one batch. *)
Definition test_body (G : gset string) (crit : criterion) (dev : device)
    (_ : nat) (b : inputs * labels) (acc : float * Z) : M (float * Z) :=
  let inputs := inputs_to dev b.1 in
  let labels := labels_to dev b.2 in
  outputs ← model_call inputs;
  l ← lift (crit outputs labels);
  resolve G "torch";;
  let preds := torch_max1 outputs in
  let running_loss := (acc.1 + item l * float_of_Z (size0 inputs))%float in
  resolve G "torch";;
  let running_corrects := wrap64 (acc.2 + count_eq preds labels) in
  mret (running_loss, running_corrects).

Definition test_in (G : gset string) (test_loader : loader)
    (crit : criterion) (dev : device) : M unit :=
  set_mode false;;
  acc ← for_enumerate (test_body G crit dev) 0 test_loader (0%float, 0%Z);
  match length test_loader with
  | O => raise ZeroDivisionError
  | S _ =>
      let total_loss := (acc.1 / float_of_Z (Z.of_nat (length test_loader)))%float in
      let total_acc :=
        (float_of_Z acc.2 / float_of_Z (Z.of_nat (length test_loader)))%float in
      resolve G "logger";;
      emit (EvTestLoss total_loss);;
      resolve G "logger";;
      emit (EvTestAcc total_acc)
  end.

(** The two functions in the namespace the file itself builds. *)
Definition train := train_in module_globals.
Definition test := test_in module_globals.

(** Epochs begun, read off the calls: every epoch opens with [model.train()]. *)
Definition is_train_mode (e : event) : bool :=
  match e with EvTrainMode => true | _ => false end.
Definition is_step (e : event) : bool :=
  match e with EvStep => true | _ => false end.
Definition epochs_begun (cs : list event) : nat :=
  length (List.filter is_train_mode cs).
Definition steps_taken (cs : list event) : nat :=
  length (List.filter is_step cs).

End Script.

(** ** A scripted library instance, to run the script on concrete data

    A batch of inputs carries the loss its evaluation will report and the
    class each sample will be predicted as; parameters are integers moved by
    [lr] times the gradient; the buffer counts forward passes made in
    training mode. *)
Module Scripted.

Definition count_hits (p l : list Z) : Z :=
  Z.of_nat (length (List.filter (λ pl : Z * Z, (pl.1 =? pl.2)%Z) (zip p l))).

#[local] Instance torch (lr : Z) : Torch := {|
  inputs := float * list Z;
  labels := list Z;
  outputs := float * list Z;
  preds := list Z;
  loss := float;
  tensor := Z;
  buffers := nat;
  slot := nat;
  device := unit;
  inputs_to := λ _ x, x;
  labels_to := λ _ y, y;
  size0 := λ x, Z.of_nat (length x.2);
  call_model := λ tr _ b x, (Ret x, if tr then S b else b);
  item := λ l, l;
  loss_grad := λ _, Ret (λ _, Some 1%Z);
  accumulate := λ g d, (default 0%Z g + d)%Z;
  torch_max1 := λ o, o.2;
  count_eq := count_hits;
  update := λ s v g, ((v - lr * g)%Z, S (default O s));
|}.

Definition crit (lr : Z) : @criterion (torch lr) := λ o _, Ret o.1.

(** [n] samples, all predicted as class 0 and all labelled 0. *)
Definition batch (l : float) (n : nat) : (float * list Z) * list Z :=
  ((l, replicate n 0%Z), replicate n 0%Z).

Definition head_store : gmap string (@parameter (torch 0)) :=
  {[ "fc.4.weight" := MkParameter (T := torch 0) 7%Z true None;
     "layer1.0.conv1.weight" := MkParameter (T := torch 0) 3%Z false None ]}.

(** A stand-in for the pretrained network: two backbone parameters and
    the two parameters of its own [fc]. *)
Definition resnet (lr : Z) : @pretrained (torch lr) :=
  Pretrained (T := torch lr)
    {[ "conv1.weight" := MkParameter (T := torch lr) 3%Z true None;
       "layer4.2.bn3.bias" := MkParameter (T := torch lr) (-2)%Z true None;
       "fc.weight" := MkParameter (T := torch lr) 11%Z true None;
       "fc.bias" := MkParameter (T := torch lr) 13%Z true None ]}
    O 2048.

Definition start (lr : Z) (ps : gmap string (@parameter (torch lr))) : @world (torch lr) :=
  World (T := torch lr) ps O true ∅ [].

End Scripted.

(** ** [create_data_loaders], lines 115-142 *)
Module Data.

Inductive transform : Type :=
| RandomResizedCrop (h w : Z)
| RandomHorizontalFlip (p : float)
| RandomGrayscale (p : float)
| RandomApply (ts : list transform)
| ColorJitter (brightness contrast saturation hue : float)
| Resize (h w : Z)
| ToTensor.

(** Which torchvision transforms draw random numbers. *)
Definition randomized (t : transform) : bool :=
  match t with
  | RandomResizedCrop _ _ | RandomHorizontalFlip _ | RandomGrayscale _
  | RandomApply _ | ColorJitter _ _ _ _ => true
  | Resize _ _ | ToTensor => false
  end.

Record image_folder : Type := ImageFolder {
  root : string;
  transform_of : list transform;
}.

Record data_loader : Type := DataLoader {
  dataset : image_folder;
  batch_size : Z;
  shuffle : bool;
}.

Fixpoint ends_with_sep (s : string) : bool :=
  match s with
  | EmptyString => false
  | String c EmptyString => String.eqb (String c EmptyString) "/"
  | String _ s' => ends_with_sep s'
  end.

(** [os.path.join] of two components on a POSIX system. *)
Definition path_join (a b : string) : string :=
  if String.prefix "/" b then b
  else if (String.eqb a "" || ends_with_sep a)%bool then a +:+ b
  else a +:+ "/" +:+ b.

Definition train_transform : list transform :=
  [ RandomResizedCrop 224 224;
    RandomHorizontalFlip 0.1;
    RandomGrayscale 0.1;
    RandomApply [ColorJitter 0.5 0.5 0.5 0.5];
    ToTensor ].

Definition test_transform : list transform :=
  [ Resize 224 224; ToTensor ].

Definition create_data_loaders (data : string) (batch_size : Z)
    : data_loader * data_loader * data_loader :=
  let train_data_path := path_join data "train" in
  let test_data_path := path_join data "test" in
  let validation_data_path := path_join data "valid" in
  let train_data := ImageFolder test_data_path train_transform in
  let train_data_loader := DataLoader train_data batch_size true in
  let test_data := ImageFolder test_data_path test_transform in
  let test_data_loader := DataLoader test_data batch_size true in
  let validation_data := ImageFolder validation_data_path test_transform in
  let validation_data_loader := DataLoader validation_data batch_size true in
  (train_data_loader, test_data_loader, validation_data_loader).

End Data.

(** ** The entry block, lines 172-180

    argparse reads the command line; what reaches the script is the list of
    flags that were given, already converted.  The defaults are evaluated
    while the parser is built, before the command line is looked at. *)
Module Entry.

Inductive given : Type :=
| GLearningRate (v : float)
| GBatchSize (v : Z)
| GEpochs (v : Z)
| GData (v : string)
| GOutputDir (v : string).

Record namespace : Type := Namespace {
  learning_rate : option float;
  batch_size : option Z;
  epochs : option Z;
  data : string;
  output_dir : string;
}.

(** [os.environ[key]]. *)
Definition environ_get (environ : gmap string string) (key : string)
    : outcome string :=
  match environ !! key with
  | Some v => Ret v
  | None => Raise (KeyError key)
  end.

(** Lines 173-178; the result is the namespace of defaults. *)
Definition build_parser (environ : gmap string string) : outcome namespace :=
  match environ_get environ "dogImages" with
  | Raise e => Raise e
  | Ret d =>
      match environ_get environ "TrainedModels/model.pth" with
      | Raise e => Raise e
      | Ret o => Ret (Namespace None None None d o)
      end
  end.

Definition store (ns : namespace) (g : given) : namespace :=
  match g with
  | GLearningRate v =>
      Namespace (Some v) (batch_size ns) (epochs ns) (data ns) (output_dir ns)
  | GBatchSize v =>
      Namespace (learning_rate ns) (Some v) (epochs ns) (data ns) (output_dir ns)
  | GEpochs v =>
      Namespace (learning_rate ns) (batch_size ns) (Some v) (data ns) (output_dir ns)
  | GData v =>
      Namespace (learning_rate ns) (batch_size ns) (epochs ns) v (output_dir ns)
  | GOutputDir v =>
      Namespace (learning_rate ns) (batch_size ns) (epochs ns) (data ns) v
  end.

(** Line 180. *)
Definition parse_args (defaults : namespace) (argv : list given) : namespace :=
  foldl store defaults argv.

Definition entry (environ : gmap string string) (argv : list given)
    : outcome namespace :=
  match build_parser environ with
  | Raise e => Raise e
  | Ret defaults => Ret (parse_args defaults argv)
  end.

Definition gives_output_dir (g : given) : bool :=
  match g with GOutputDir _ => true | _ => false end.

End Entry.

(** ** [main], lines 144-170, with the functions as [main] runs them

    A run of [main] ends by completing, with one of the script's
    exceptions, or with the [TypeError] of [range(None)] when [--epochs]
    was not given.  The libraries the run meets are a parameter: opening an
    image folder, building a loader, loading the pretrained network,
    checking the optimizer's arguments and writing the file can each
    raise. *)
Inductive crash : Type :=
| Crash (e : exn)
| TypeError (msg : string).

#[global] Instance outcome_ret : MRet outcome := λ A a, Ret a.
#[global] Instance outcome_bind : MBind outcome := λ A B f o,
  match o with
  | Ret a => f a
  | Raise e => Raise e
  end.

Definition check (G : gset string) (name : string) : outcome unit :=
  if bound G name then Ret tt else Raise (NameError name).

(** State [S], a result or a [crash]. *)
Definition St (S A : Type) : Type := S → (A + crash) * S.

#[global] Instance St_ret {S} : MRet (St S) := λ A a s, (inl a, s).
#[global] Instance St_bind {S} : MBind (St S) := λ A B f m s,
  match m s with
  | (inl a, s') => f a s'
  | (inr c, s') => (inr c, s')
  end.

Definition fail {S A} (c : crash) : St S A := λ s, (inr c, s).
Definition need {S} (G : gset string) (name : string) : St S unit :=
  if bound G name then mret tt else fail (Crash (NameError name)).
Definition from_lib {S A} (o : outcome A) : St S A :=
  match o with
  | Ret a => mret a
  | Raise e => fail (Crash e)
  end.

Section Main.
Context `{T : Torch}.

(** What [main] prints, logs and writes. *)
Inductive line : Type :=
| TrainingWith (learning_rate : option float) (batch_size epochs : option Z)
| DataPaths (data : string)
| StartingTraining
| StartingTesting
| SavingModel
| Saved (values : gmap string tensor) (bfs : buffers) (path : string)
| Printed (text : string).

Record libraries : Type := Libraries {
  dataset : Type;
  (* torchvision.datasets.ImageFolder(root=.., transform=..) *)
  open_folder : Data.image_folder → outcome dataset;
  (* torch.utils.data.DataLoader(dataset, batch_size=.., shuffle=..) *)
  make_loader : dataset → option Z → bool → outcome loader;
  (* models.resnet50(pretrained=True) *)
  resnet50 : outcome pretrained;
  (* the values new nn.Linear modules start with *)
  initial : string → tensor;
  (* nn.CrossEntropyLoss() *)
  cross_entropy : criterion;
  (* optim.Adam's checks of its parameters and learning rate *)
  adam : optimizer → option float → outcome unit;
  (* what the name device denotes where it is bound *)
  the_device : device;
  (* torch.save(state_dict, path) *)
  save : gmap string tensor → buffers → string → outcome unit;
}.

(** Lines 115-142 as executed: the names read, the folders opened and the
    loaders built, in source order. *)
Definition create_data_loaders_run (G : gset string) (lib : libraries)
    (data : string) (batch_size : option Z) : outcome (loader * loader * loader) :=
  check G "os";;
  let train_data_path := Data.path_join data "train" in
  check G "os";;
  let test_data_path := Data.path_join data "test" in
  check G "os";;
  let validation_data_path := Data.path_join data "valid" in
  check G "transforms";;
  let train_transform := Data.train_transform in
  check G "transforms";;
  let test_transform := Data.test_transform in
  check G "torchvision";;
  train_data ← open_folder lib (Data.ImageFolder test_data_path train_transform);
  check G "torch";;
  train_data_loader ← make_loader lib train_data batch_size true;
  check G "torchvision";;
  test_data ← open_folder lib (Data.ImageFolder test_data_path test_transform);
  check G "torch";;
  test_data_loader ← make_loader lib test_data batch_size true;
  check G "torchvision";;
  validation_data ←
    open_folder lib (Data.ImageFolder validation_data_path test_transform);
  check G "torch";;
  validation_data_loader ← make_loader lib validation_data batch_size true;
  Ret (train_data_loader, test_data_loader, validation_data_loader).

(** Lines 99-113 as executed. *)
Definition net_run (G : gset string) (lib : libraries) : outcome model :=
  check G "models";;
  model ← resnet50 lib;
  check G "nn";;
  Ret (net model (initial lib)).

Definition say (l : line) : St (list line) unit :=
  λ out, (inl tt, out ++ [l]).
Definition tell (l : line) : St (world * list line) unit :=
  λ s, (inl tt, (s.1, s.2 ++ [l])).
Definition in_world {A} (m : M A) : St (world * list line) A := λ s,
  match m s.1 with
  | (Ret a, w') => (inl a, (w', s.2))
  | (Raise e, w') => (inr (Crash e), (w', s.2))
  end.

(** Lines 146-162. *)
Definition main_setup (G : gset string) (lib : libraries)
    (args : Entry.namespace)
    : St (list line) (loader * loader * loader * model) :=
  need G "logger";;
  say (TrainingWith (Entry.learning_rate args) (Entry.batch_size args)
                    (Entry.epochs args));;
  need G "logger";;
  say (DataPaths (Entry.data args));;
  let batch_size := Entry.batch_size args in
  let learning_rate := Entry.learning_rate args in
  need G "create_data_loaders";;
  loaders ← from_lib (create_data_loaders_run G lib (Entry.data args) batch_size);
  need G "net";;
  model ← from_lib (net_run G lib);
  need G "nn";;
  need G "optim";;
  from_lib (adam lib (main_optimizer model) learning_rate);;
  need G "logger";;
  say StartingTraining;;
  mret (loaders, model).

(** Line 163, the call of [train]: the callee and then the arguments are
    evaluated, [device] last; without [--epochs] the callee gets [None] and
    [range(None)] raises once line 27 is past. *)
Definition call_train (G : gset string) (lib : libraries)
    (train_loader validation_loader : loader) (opt : optimizer)
    (epochs : option Z) : St (world * list line) unit :=
  need G "train";;
  need G "device";;
  match epochs with
  | Some n =>
      in_world (train_in G train_loader validation_loader (cross_entropy lib)
                         opt n (the_device lib))
  | None =>
      in_world (resolve G "Report");;
      fail (TypeError "'NoneType' object cannot be interpreted as an integer")
  end.

(** Lines 163-170.  [print] is a built-in and always resolves. *)
Definition main_tail (G : gset string) (lib : libraries)
    (args : Entry.namespace) (loaders : loader * loader * loader)
    (m : model) : St (world * list line) unit :=
  let '(train_loader, test_loader, validation_loader) := loaders in
  let optimizer := main_optimizer m in
  call_train G lib train_loader validation_loader optimizer (Entry.epochs args);;
  need G "logger";;
  tell StartingTesting;;
  need G "test";;
  need G "device";;
  in_world (test_in G test_loader (cross_entropy lib) (the_device lib));;
  need G "logger";;
  tell SavingModel;;
  need G "torch";;
  (λ s, let w := s.1 in
        (from_lib (save lib (data <$> params w) (bufs w) (Entry.output_dir args));;
         tell (Saved (data <$> params w) (bufs w) (Entry.output_dir args)))
        s);;
  tell (Printed "saved").

(** How a run ended ([None]: it completed), what it printed and wrote, and
    the model's world once [net] had built it. *)
Record run : Type := Run {
  ended : option crash;
  printed : list line;
  built : option world;
}.

Definition main_in (G : gset string) (lib : libraries)
    (args : Entry.namespace) (out : list line) : run :=
  match main_setup G lib args out with
  | (inr c, out1) => Run (Some c) out1 None
  | (inl (loaders, m), out1) =>
      match main_tail G lib args loaders m (main_world m, out1) with
      | (inl _, (w, out2)) => Run None out2 (Some w)
      | (inr c, (w, out2)) => Run (Some c) out2 (Some w)
      end
  end.

(** [main] in the namespace the file itself builds. *)
Definition main := main_in module_globals.

Definition is_saved (l : line) : bool :=
  match l with Saved _ _ _ => true | _ => false end.

End Main.

(** ** Vocabulary of the statements *)
Section Vocabulary.
Context `{T : Torch}.

(** A computation keeps an observation of the world when running it, to
    completion or to an exception, leaves that observation as it was. *)
Definition keeps {X A} (obs : world → X) (m : M A) : Prop :=
  ∀ w, obs (m w).2 = obs w.

(** How many of the calls made so far satisfy [p]. *)
Definition count (p : event → bool) (w : world) : nat :=
  length (List.filter p (calls w)).

(** What one batch adds to the two running sums, given the outputs and the
    loss that were computed for it. *)
Definition tally (dev : device) (acc : float * Z) (b : inputs * labels)
    (ol : outputs * loss) : float * Z :=
  ((acc.1 + item ol.2 * float_of_Z (size0 (inputs_to dev b.1)))%float,
   wrap64 (acc.2 + count_eq (torch_max1 ol.1) (labels_to dev b.2))).

Fixpoint tally_all (dev : device) (acc : float * Z) (ds : loader)
    (seen : list (outputs * loss)) : float * Z :=
  match ds, seen with
  | b :: ds', ol :: seen' => tally_all dev (tally dev acc b ol) ds' seen'
  | _, _ => acc
  end.

(** [seen] pairs, batch by batch, outputs that the model can return on the
    batch with the loss the criterion gives for them. *)
Definition loss_of (crit : criterion) (dev : device) (b : inputs * labels)
    (ol : outputs * loss) : Prop :=
  (∃ tr vals bf, (call_model tr vals bf (inputs_to dev b.1)).1 = Ret ol.1) ∧
  crit ol.1 (labels_to dev b.2) = Ret ol.2.

Definition losses_of (crit : criterion) (dev : device) (ds : loader)
    (seen : list (outputs * loss)) : Prop :=
  Forall2 (loss_of crit dev) ds seen.

(** The model answers on every batch of [ds], in any state, and the
    criterion answers on whatever the model returned. *)
Definition answers (crit : criterion) (dev : device) (ds : loader) : Prop :=
  ∀ b, b ∈ ds →
    (∀ tr vals bf, ∃ o bf',
       call_model tr vals bf (inputs_to dev b.1) = (Ret o, bf')) ∧
    (∀ o, ∃ l, crit o (labels_to dev b.2) = Ret l).





End Vocabulary.

(** The file's namespace with the name [Report] bound as well, to the
    progress recorder that line 27 expects. *)
Definition with_Report : gset string := module_globals ∪ {["Report"]}.

(** ** Further vocabulary: updates, the whole script, a scripted run *)

(** The calls by which training changes parameters. *)
Definition is_update (e : event) : bool :=
  match e with
  | EvZeroGrad | EvBackward | EvStep => true
  | _ => false
  end.

(** What has been learnt: the Parameter objects and the optimizer's
    statistics. *)
Definition learnt `{T : Torch} (w : world) :
    gmap string parameter * gmap string slot :=
  (params w, opt_state w).

(** Lines 172-181 in the file's own namespace: the entry block, then
    [main] on the parsed arguments. *)
Definition script `{T : Torch} (environ : gmap string string)
    (argv : list Entry.given) (lib : libraries) : run :=
  match Entry.entry environ argv with
  | Raise e => Run (Some (Crash e)) [] None
  | Ret args => main lib args []
  end.

(** The file's namespace with [Report] and [device] bound as well. *)
Definition with_Report_and_device : gset string :=
  module_globals ∪ {["Report"; "device"]}.

(** Libraries that always answer, over the scripted instance: every folder
    opens, every loader holds one batch of 4 samples with loss 0.5. *)
Module Rig.

Definition libs (lr : Z) : @libraries (Scripted.torch lr) :=
  Libraries (T := Scripted.torch lr)
    Data.image_folder
    (λ d, Ret d)
    (λ _ _ _, Ret [Scripted.batch 0.5 4])
    (Ret (Scripted.resnet lr))
    (λ _, 7%Z)
    (Scripted.crit lr)
    (λ _ _, Ret tt)
    tt
    (λ _ _ _, Ret tt).

Definition args : Entry.namespace :=
  Entry.Namespace (Some 0.001%float) (Some 4%Z) (Some 5%Z) "/data" "/out/model.pth".

End Rig.

(** ** Further vocabulary: folders reopened *)
Section Returning.
Context `{T : Torch}.

(** The same libraries with another way of opening image folders. *)
Definition reopen (lib : libraries)
    (f : Data.image_folder → outcome (dataset lib)) : libraries :=
  Libraries (dataset lib) f (make_loader lib) (resnet50 lib) (initial lib)
            (cross_entropy lib) (adam lib) (the_device lib) (save lib).

End Returning.

(** ** Further vocabulary: a model call that runs the head *)

(** [model(inputs)] ends in [model.fc]: when the layers of the head accept
    no width, the call raises on every input. *)
Definition runs_the_head `{T : Torch} (m : model) : Prop :=
  (∀ width, ∃ e, sequential_forward (fc m) width = Raise e) →
  ∀ tr vals bf x, ∃ e bf', call_model tr vals bf x = (Raise e, bf').

(** The scripted instance with a model call that runs the head of lines
    104-108 on the 2048 features of the pretrained network, and libraries
    that always answer over it. *)
Module Shaped.

Definition head : list layer :=
  [ Linear 2048 128; ReLU; Linear 128 32; ReLU; Linear 128 5 ].

#[local] Instance torch : Torch := {|
  inputs := float * list Z;
  labels := list Z;
  outputs := float * list Z;
  preds := list Z;
  loss := float;
  tensor := Z;
  buffers := nat;
  slot := nat;
  device := unit;
  inputs_to := λ _ x, x;
  labels_to := λ _ y, y;
  size0 := λ x, Z.of_nat (length x.2);
  call_model := λ tr _ b x,
    match sequential_forward head 2048 with
    | Ret _ => (Ret x, if tr then S b else b)
    | Raise e => (Raise e, b)
    end;
  item := λ l, l;
  loss_grad := λ _, Ret (λ _, Some 1%Z);
  accumulate := λ g d, (default 0%Z g + d)%Z;
  torch_max1 := λ o, o.2;
  count_eq := Scripted.count_hits;
  update := λ s v g, ((v - 2 * g)%Z, S (default O s));
|}.

Definition resnet : @pretrained torch :=
  Pretrained (T := torch)
    {[ "conv1.weight" := MkParameter (T := torch) 3%Z true None;
       "layer4.2.bn3.bias" := MkParameter (T := torch) (-2)%Z true None;
       "fc.weight" := MkParameter (T := torch) 11%Z true None;
       "fc.bias" := MkParameter (T := torch) 13%Z true None ]}
    O 2048.

Definition libs : @libraries torch :=
  Libraries (T := torch)
    Data.image_folder
    (λ d, Ret d)
    (λ _ _ _, Ret [Scripted.batch 0.5 4])
    (Ret resnet)
    (λ _, 7%Z)
    (λ o _, Ret o.1)
    (λ _ _, Ret tt)
    tt
    (λ _ _ _, Ret tt).

End Shaped.

(** * Verification *)

(** ** Observations that a computation leaves alone *)
Section Keeps.
Context `{T : Torch} {X : Type} (obs : world → X).
Local Abbreviation keeps := (keeps obs).

Lemma keeps_ret {A} (a : A) : keeps (mret a).
Proof. intros w. reflexivity. Qed.

Lemma keeps_raise {A} (e : exn) : keeps (raise (A := A) e).
Proof. intros w. reflexivity. Qed.

Lemma keeps_lift {A} (o : outcome A) : keeps (lift o).
Proof. intros w. reflexivity. Qed.

Lemma keeps_resolve G name : keeps (resolve G name).
Proof. intros w. unfold resolve. destruct (bound G name); reflexivity. Qed.

Lemma keeps_modify (f : world → world) :
  (∀ w, obs (f w) = obs w) → keeps (modify f).
Proof. intros Hf w. apply Hf. Qed.

Lemma keeps_bind {A B} (m : M A) (k : A → M B) :
  keeps m → (∀ a, keeps (k a)) → keeps (m ≫= k).
Proof.
  intros Hm Hk w. unfold mbind, M_bind.
  specialize (Hm w). destruct (m w) as [[a|e] w1]; simpl in *.
  - rewrite Hk. exact Hm.
  - exact Hm.
Qed.

Lemma keeps_after {A B} (m : M A) (k : A → M B) :
  (∀ a, keeps (k a)) → ∀ w, obs ((m ≫= k) w).2 = obs (m w).2.
Proof.
  intros Hk w. unfold mbind, M_bind.
  destruct (m w) as [[a|e] w1]; simpl; [apply Hk | reflexivity].
Qed.

Lemma bind_Ret {A B} (m : M A) (k : A → M B) w b w' :
  (m ≫= k) w = (Ret b, w') ↔ ∃ a w1, m w = (Ret a, w1) ∧ k a w1 = (Ret b, w').
Proof.
  unfold mbind, M_bind. split.
  - destruct (m w) as [[a|e] w1]; [eauto | discriminate].
  - intros (a & w1 & -> & Hk). exact Hk.
Qed.

Lemma keeps_for_enumerate {A B} (body : nat → A → B → M B) :
  (∀ pos x s, keeps (body pos x s)) →
  ∀ l pos s, keeps (for_enumerate body pos l s).
Proof.
  intros Hb l. induction l as [|x l IH]; intros pos s; simpl.
  - apply keeps_ret.
  - apply keeps_bind; [apply Hb | intros s'; apply IH].
Qed.

End Keeps.

Create HintDb keeps.
#[global] Hint Resolve keeps_ret keeps_raise keeps_lift keeps_resolve : keeps.

Ltac keeps_step :=
  first [ apply keeps_bind; [| intros ? ]
        | apply keeps_for_enumerate; intros ? ? ?
        | solve [ auto with keeps ] ].

(** ** Counting calls *)
Section Counting.
Context `{T : Torch} (p : event → bool).
Local Abbreviation count := (count p).

Lemma count_emit e w :
  count (emit e w).2 = count w + (if p e then 1 else 0).
Proof.
  unfold count, emit, modify. simpl. rewrite List.filter_app, length_app.
  simpl. destruct (p e); reflexivity.
Qed.

Lemma keeps_emit e : p e = false → keeps count (emit e).
Proof. intros He w. rewrite count_emit, He. lia. Qed.

Lemma keeps_same_calls (f : world → world) :
  (∀ w, calls (f w) = calls w) → keeps count (modify f).
Proof. intros Hf. apply keeps_modify. intros w. unfold count. by rewrite Hf. Qed.

Lemma keeps_model_call x : keeps count (model_call x).
Proof.
  intros w. unfold model_call.
  destruct (call_model (training w) (data <$> params w) (bufs w) x); reflexivity.
Qed.

Lemma keeps_zero_grad opt : p EvZeroGrad = false → keeps count (zero_grad opt).
Proof.
  intros Hp. unfold zero_grad. apply keeps_bind; [| intros _; by apply keeps_emit].
  by apply keeps_same_calls.
Qed.

Lemma keeps_backward l : p EvBackward = false → keeps count (backward l).
Proof.
  intros Hp. unfold backward. apply keeps_bind; [apply keeps_lift |].
  intros g. apply keeps_bind; [| intros _; by apply keeps_emit].
  by apply keeps_same_calls.
Qed.

Lemma calls_step_one w k : calls (step_one w k) = calls w.
Proof.
  unfold step_one. destruct (params w !! k) as [q|]; [| done].
  destruct (grad q); [| done].
  by destruct (update (opt_state w !! k) (data q) t).
Qed.

Lemma calls_foldl_step_one opt w : calls (foldl step_one w opt) = calls w.
Proof.
  revert w. induction opt as [|k opt IH]; intros w; simpl; [done |].
  by rewrite IH, calls_step_one.
Qed.

Lemma count_step opt w :
  count (step opt w).2 = count w + (if p EvStep then 1 else 0).
Proof.
  unfold step, mbind, M_bind, modify. rewrite count_emit.
  unfold count. by rewrite calls_foldl_step_one.
Qed.

Lemma count_set_mode b w :
  count (set_mode b w).2
  = count w + (if p (if b then EvTrainMode else EvEvalMode) then 1 else 0).
Proof. unfold set_mode, mbind, M_bind, modify. by rewrite count_emit. Qed.

End Counting.

(** ** How many epochs the loop begins *)
Section Epochs.
Context `{T : Torch}.
Variables (G : gset string) (train_loader validation_loader : loader).
Variables (crit : criterion) (opt : optimizer) (dev : device).

Local Abbreviation begun := (count is_train_mode).

Lemma begun_batch_body ph tot pos b acc :
  keeps begun (batch_body G ph crit opt dev tot pos b acc).
Proof.
  unfold batch_body.
  apply keeps_bind; [apply keeps_model_call | intros o].
  apply keeps_bind; [apply keeps_lift | intros l].
  apply keeps_bind.
  - destruct ph; [| apply keeps_ret].
    apply keeps_bind; [by apply keeps_zero_grad | intros _].
    apply keeps_bind; [by apply keeps_backward | intros _].
    apply keeps_bind; [by apply keeps_emit | intros _].
    intros w. rewrite count_step. simpl. lia.
  - intros _. repeat keeps_step.
Qed.

Lemma begun_phase_metrics ph w :
  begun (phase_metrics G train_loader validation_loader crit opt dev ph w).2
  = begun w + match ph with train_phase => 1 | valid_phase => 0 end.
Proof.
  unfold phase_metrics. rewrite keeps_after.
  - rewrite count_set_mode. by destruct ph.
  - intros _. apply keeps_bind.
    + apply keeps_for_enumerate. intros. apply begun_batch_body.
    + intros acc. destruct (length _); auto with keeps.
Qed.

Lemma begun_log_pass ds ph m t : keeps begun (log_pass G ds crit ph m t).
Proof.
  unfold log_pass. apply keeps_bind; [apply keeps_resolve | intros _].
  apply keeps_for_enumerate. intros pos b _.
  apply keeps_bind; [apply keeps_model_call | intros o].
  apply keeps_bind; [apply keeps_lift | intros _].
  apply keeps_bind; [apply keeps_resolve | intros _].
  by apply keeps_emit.
Qed.

Lemma begun_phase_body ph t w :
  begun (phase_body G train_loader validation_loader crit opt dev ph t w).2
  = begun w + match ph with train_phase => 1 | valid_phase => 0 end.
Proof.
  unfold phase_body. rewrite keeps_after; [apply begun_phase_metrics |].
  intros m. destruct ph; [apply keeps_ret |].
  apply keeps_bind; [apply begun_log_pass | intros _; apply keeps_ret].
Qed.

Lemma begun_epoch_body t w :
  begun (epoch_body G train_loader validation_loader crit opt dev t w).2
  = begun w + 1.
Proof.
  unfold epoch_body, mbind, M_bind.
  pose proof (begun_phase_body train_phase t w) as H1.
  destruct (phase_body _ _ _ _ _ _ train_phase t w) as [[t1|e] w1]; simpl in *.
  - rewrite begun_phase_body, H1. lia.
  - exact H1.
Qed.

(** Epoch 0 ends the loop, whatever is left of the range. *)
Lemma epoch_loop_first es t w :
  epoch_loop G train_loader validation_loader crit opt dev (0 :: es) t w
  = epoch_body G train_loader validation_loader crit opt dev t w.
Proof.
  simpl. unfold mbind, M_bind.
  destruct (epoch_body _ _ _ _ _ _ t w) as [[t'|e] w']; [| reflexivity].
  destruct (loss_counter t' =? 1)%Z; reflexivity.
Qed.

(** A stall counter of 1 ends the loop at any epoch. *)
Lemma epoch_loop_stalled epoch es t w t' w' :
  epoch_body G train_loader validation_loader crit opt dev t w = (Ret t', w') →
  loss_counter t' = 1%Z →
  epoch_loop G train_loader validation_loader crit opt dev (epoch :: es) t w
  = (Ret t', w').
Proof.
  intros Hb Hc. simpl. unfold mbind, M_bind. rewrite Hb, Hc. reflexivity.
Qed.

Lemma range_cases n : range n = [] ∨ ∃ es, range n = 0 :: es.
Proof.
  unfold range. destruct (Z.to_nat n) as [|k]; [by left | right].
  by exists (seq 1 k).
Qed.

Lemma range_pos n : (1 ≤ n)%Z → ∃ es, range n = 0 :: es.
Proof.
  intros Hn. unfold range. destruct (Z.to_nat n) as [|k] eqn:E; [lia |].
  by exists (seq 1 k).
Qed.

Lemma begun_train_in epochs w :
  begun (train_in G train_loader validation_loader crit opt epochs dev w).2
  ≤ begun w + 1.
Proof.
  unfold train_in. unfold mbind at 1, M_bind at 1.
  pose proof (keeps_resolve begun G "Report" w) as Hr.
  destruct (resolve G "Report" w) as [[[]|e] w1]; simpl in *; [| lia].
  rewrite keeps_after by (intros; apply keeps_ret).
  destruct (range_cases epochs) as [-> | [es ->]].
  - simpl. lia.
  - rewrite epoch_loop_first, begun_epoch_body. lia.
Qed.

End Epochs.

(** C10: in the namespace the file builds, [Report] is bound neither by
    the module nor by the built-ins, so every call of [train] raises
    [NameError] at line 27 and leaves the world as it found it: no mode
    change, no batch, no parameter update. *)
Theorem train_raises_NameError `{T : Torch}
    (train_loader validation_loader : loader) (crit : criterion)
    (opt : optimizer) (epochs : Z) (dev : device) (w : world) :
("Report" ∉ (module_globals ∪ builtins)) ∧
  train train_loader validation_loader crit opt epochs dev w
  = (Raise (NameError "Report"), w).
Proof.
  split.
  - apply (bool_decide_eq_false_1 _). vm_compute. reflexivity.
  - unfold train, train_in, resolve.
    replace (bound module_globals "Report") with false
      by (vm_compute; reflexivity).
    reflexivity.
Qed.

(** C1: with [max_epochs >= 1] the loop begins at most 2 epochs; epoch 0
    always ends it once its validation phase is over; and a stall counter
    of 1 ends it at any epoch, whatever remains of the range. *)
Theorem train_at_most_two_epochs `{T : Torch} (G : gset string)
    (train_loader validation_loader : loader) (crit : criterion)
    (opt : optimizer) (epochs : Z) (dev : device) :
  (1 ≤ epochs)%Z →
  (∀ w, epochs_begun
          (calls (train_in G train_loader validation_loader crit opt epochs dev w).2)
        ≤ epochs_begun (calls w) + 2) ∧
  (∃ es, range epochs = 0 :: es ∧ ∀ t w,
     epoch_loop G train_loader validation_loader crit opt dev (0 :: es) t w
     = epoch_body G train_loader validation_loader crit opt dev t w) ∧
  (∀ epoch es t w t' w',
     epoch_body G train_loader validation_loader crit opt dev t w = (Ret t', w') →
     loss_counter t' = 1%Z →
     epoch_loop G train_loader validation_loader crit opt dev (epoch :: es) t w
     = (Ret t', w')).
Proof.
  intros Hn. split; [| split].
  - intros w.
    pose proof (begun_train_in G train_loader validation_loader crit opt dev epochs w).
    unfold count in H. unfold epochs_begun. lia.
  - destruct (range_pos epochs Hn) as [es Hes]. exists es. split; [done |].
    intros t w. apply epoch_loop_first.
  - intros epoch es t w t' w'. apply epoch_loop_stalled.
Qed.

Lemma train_at_most_two_epochs_witness :
  (1 ≤ 5)%Z ∧
  epochs_begun
    (calls (train_in (T := Scripted.torch 0) with_Report
              [Scripted.batch 1 4; Scripted.batch 3 4] [Scripted.batch 0.5 4]
              (Scripted.crit 0) ["fc.4.weight"] 5 tt
              (Scripted.start 0 Scripted.head_store)).2)
  ≤ 0 + 2.
Proof.
  split; [lia |].
  exact (proj1 (train_at_most_two_epochs (T := Scripted.torch 0) with_Report
                  [Scripted.batch 1 4; Scripted.batch 3 4] [Scripted.batch 0.5 4]
                  (Scripted.crit 0) ["fc.4.weight"] 5 tt ltac:(lia))
               (Scripted.start 0 Scripted.head_store)).
Defined.

(** ** The tracker across epochs *)
Section Tracker.
Context `{T : Torch}.
Variables (G : gset string) (train_loader validation_loader : loader).
Variables (crit : criterion) (opt : optimizer) (dev : device).

Lemma update_tracker_improved el t :
  PrimFloat.ltb el (best_loss t) = true →
  update_tracker el t = Tracker el (loss_counter t).
Proof. intros H. unfold update_tracker. by rewrite H. Qed.

Lemma update_tracker_stalled el t :
  PrimFloat.ltb el (best_loss t) = false →
  update_tracker el t = Tracker (best_loss t) (loss_counter t + 1).
Proof. intros H. unfold update_tracker. by rewrite H. Qed.

Lemma update_tracker_counter el t :
  loss_counter (update_tracker el t)
  = (loss_counter t + if PrimFloat.ltb el (best_loss t) then 0 else 1)%Z.
Proof.
  unfold update_tracker. destruct (PrimFloat.ltb el (best_loss t)); simpl; lia.
Qed.

(** What a completed epoch consists of. *)
Lemma epoch_body_Ret t w t' w' :
  epoch_body G train_loader validation_loader crit opt dev t w = (Ret t', w') ↔
  ∃ w1 m w2,
    phase_body G train_loader validation_loader crit opt dev train_phase t w
    = (Ret t, w1) ∧
    phase_metrics G train_loader validation_loader crit opt dev valid_phase w1
    = (Ret m, w2) ∧
    t' = update_tracker (epoch_loss m) t ∧
    log_pass G validation_loader crit valid_phase m t' w2 = (Ret tt, w').
Proof.
  unfold epoch_body. rewrite bind_Ret. split.
  - intros (t1 & w1 & H1 & H2).
    assert (t1 = t) as ->.
    { unfold phase_body in H1. apply bind_Ret in H1 as (m & w0 & _ & Hr).
      by inversion Hr. }
    unfold phase_body in H2. apply bind_Ret in H2 as (m & w2 & Hm & Hr).
    apply bind_Ret in Hr as ([] & w3 & Hl & Hr). inversion Hr; subst.
    exists w1, m, w2. done.
  - intros (w1 & m & w2 & H1 & Hm & -> & Hl).
    exists t, w1. split; [done |].
    unfold phase_body. apply bind_Ret. exists m, w2. split; [done |].
    apply bind_Ret. exists tt, w'. done.
Qed.

Lemma epoch_body_counter t w t' w' :
  epoch_body G train_loader validation_loader crit opt dev t w = (Ret t', w') →
  (loss_counter t ≤ loss_counter t' ≤ loss_counter t + 1)%Z.
Proof.
  intros (w1 & m & w2 & _ & _ & -> & _)%epoch_body_Ret.
  rewrite update_tracker_counter.
  destruct (PrimFloat.ltb (epoch_loss m) (best_loss t)); lia.
Qed.

Lemma epoch_loop_counter es : ∀ t w t' w',
  epoch_loop G train_loader validation_loader crit opt dev es t w = (Ret t', w') →
  (loss_counter t ≤ loss_counter t' ≤ loss_counter t + Z.of_nat (length es))%Z.
Proof.
  induction es as [|epoch es IH]; intros t w t' w' H; simpl in H.
  - inversion H; subst. simpl. lia.
  - apply bind_Ret in H as (t1 & w1 & Hb & Hr).
    apply epoch_body_counter in Hb. rewrite length_cons.
    destruct (loss_counter t1 =? 1)%Z; [inversion Hr; subst; lia |].
    destruct (epoch =? 0); [inversion Hr; subst; lia |].
    apply IH in Hr. lia.
Qed.

End Tracker.

(** ** The running sums and the two quotients *)
Section Sums.
Context `{T : Torch}.
Variables (G : gset string) (crit : criterion) (opt : optimizer) (dev : device).

Lemma lift_Ret {A} (o : outcome A) w a w' :
  lift o w = (Ret a, w') → o = Ret a.
Proof. unfold lift. by inversion 1. Qed.

Lemma model_call_Ret x w o w' :
  model_call x w = (Ret o, w') →
  (call_model (training w) (data <$> params w) (bufs w) x).1 = Ret o ∧
  calls w' = calls w ∧ params w' = params w.
Proof.
  unfold model_call.
  destruct (call_model (training w) (data <$> params w) (bufs w) x) as [o' b'].
  inversion 1; subst. done.
Qed.

Lemma batch_body_Ret ph tot pos b acc w acc' w' :
  batch_body G ph crit opt dev tot pos b acc w = (Ret acc', w') →
  ∃ ol, loss_of crit dev b ol ∧ acc' = tally dev acc b ol.
Proof.
  unfold batch_body. intros H.
  apply bind_Ret in H as (o & w1 & (Ho & _)%model_call_Ret & H).
  apply bind_Ret in H as (l & w2 & Hl%lift_Ret & H).
  apply bind_Ret in H as ([] & w3 & _ & H).
  apply bind_Ret in H as ([] & w4 & _ & H).
  apply bind_Ret in H as ([] & w5 & _ & H).
  inversion H; subst. exists (o, l). split; [| done].
  split; [by eexists _, _, _ | done].
Qed.

Lemma batches_Ret ph tot ds : ∀ pos acc w acc' w',
  for_enumerate (batch_body G ph crit opt dev tot) pos ds acc w = (Ret acc', w') →
  ∃ seen, losses_of crit dev ds seen ∧ acc' = tally_all dev acc ds seen.
Proof.
  induction ds as [|b ds IH]; intros pos acc w acc' w' H; simpl in H.
  - inversion H; subst. exists []. split; [constructor | done].
  - apply bind_Ret in H as (acc1 & w1 & Hb & H).
    apply batch_body_Ret in Hb as (ol & Hol & ->).
    apply IH in H as (seen & Hseen & ->).
    exists (ol :: seen). split; [by constructor | done].
Qed.

Lemma phase_metrics_Ret tl vl ph w m w' :
  phase_metrics G tl vl crit opt dev ph w = (Ret m, w') →
  let ds := image_dataset tl vl ph in
  epoch_loss m = (running_loss m / float_of_Z (Z.of_nat (length ds)))%float ∧
  epoch_acc m = f32_div (f32_of_Z (running_corrects m))
                        (f32_of_Z (Z.of_nat (length ds))) ∧
  ∃ seen, losses_of crit dev ds seen ∧
          (running_loss m, running_corrects m)
          = tally_all dev (0%float, 0%Z) ds seen.
Proof.
  unfold phase_metrics. intros H.
  apply bind_Ret in H as ([] & w1 & _ & H).
  apply bind_Ret in H as (acc & w2 & Hacc & H).
  apply batches_Ret in Hacc as (seen & Hseen & ->).
  destruct (length (image_dataset tl vl ph)) eqn:E; [discriminate |].
  inversion H; subst; clear H. cbv zeta.
  cbn [running_loss running_corrects epoch_loss epoch_acc].
  split; [done |]. split; [done |]. exists seen. split; [done |].
  by destruct (tally_all _ _ _ _).
Qed.

End Sums.

(** C4: a phase that completes reports [epoch_loss] as the running sum of
    loss value times batch size divided by the number of batches
    ([len] of the loader, not the number of samples), and [epoch_acc] as the
    running count of correct predictions divided by that same number; two
    training batches of 4 samples with losses 1.0 and 3.0 give
    [running_loss = 16.0] and [epoch_loss = 8.0]. *)
Theorem epoch_metrics_per_batch :
  (∀ (T : Torch) (G : gset string) (train_loader validation_loader : loader)
     (crit : criterion) (opt : optimizer) (dev : device) (ph : phase)
     (w : world) (m : metrics) (w' : world),
     phase_metrics G train_loader validation_loader crit opt dev ph w
     = (Ret m, w') →
     let ds := image_dataset train_loader validation_loader ph in
     epoch_loss m = (running_loss m / float_of_Z (Z.of_nat (length ds)))%float ∧
     epoch_acc m = f32_div (f32_of_Z (running_corrects m))
                           (f32_of_Z (Z.of_nat (length ds))) ∧
     ∃ seen, losses_of crit dev ds seen ∧
             (running_loss m, running_corrects m)
             = tally_all dev (0%float, 0%Z) ds seen) ∧
  (∃ m w',
     phase_metrics (T := Scripted.torch 0) module_globals
       [Scripted.batch 1 4; Scripted.batch 3 4] [Scripted.batch 0.5 4]
       (Scripted.crit 0) ["fc.4.weight"] tt train_phase
       (Scripted.start 0 Scripted.head_store)
     = (Ret m, w') ∧
     running_loss m = 16%float ∧ epoch_loss m = 8%float).
Proof.
  split.
  - intros T G tl vl crit opt dev ph w m w' H.
    exact (phase_metrics_Ret G crit opt dev tl vl ph w m w' H).
  - eexists _, _. split; [vm_compute; reflexivity |]. split; reflexivity.
Qed.

Lemma epoch_metrics_per_batch_witness :
  ∃ m, epoch_loss m = (running_loss m / float_of_Z 1)%float ∧
       running_loss m = 2%float.
Proof.
  pose (r := phase_metrics (T := Scripted.torch 0) module_globals
               [Scripted.batch 1 4] [Scripted.batch 0.5 4]
               (Scripted.crit 0) [] tt valid_phase (Scripted.start 0 ∅)).
  assert (∃ m w', r = (Ret m, w')) as He
    by (eexists _, _; vm_compute; reflexivity).
  destruct He as (m & w' & He). subst r. exists m. split.
  - exact (proj1 (proj1 epoch_metrics_per_batch _ _ _ _ _ _ _ _ _ _ _ He)).
  - revert He. vm_compute. intros He. inversion He. reflexivity.
Defined.

(** The loop hands the tracker of each epoch to the next one, or returns
    it at a [break]. *)
Lemma epoch_loop_cons_Ret `{T : Torch} (G : gset string)
    (train_loader validation_loader : loader) (crit : criterion)
    (opt : optimizer) (dev : device) epoch es t w t' w' :
  epoch_loop G train_loader validation_loader crit opt dev (epoch :: es) t w
  = (Ret t', w') ↔
  ∃ t1 w1,
    epoch_body G train_loader validation_loader crit opt dev t w = (Ret t1, w1) ∧
    (((loss_counter t1 = 1%Z ∨ epoch = 0) ∧ t' = t1 ∧ w' = w1) ∨
     (loss_counter t1 ≠ 1%Z ∧ epoch ≠ 0 ∧
      epoch_loop G train_loader validation_loader crit opt dev es t1 w1
      = (Ret t', w'))).
Proof.
  simpl. rewrite bind_Ret. split.
  - intros (t1 & w1 & Hb & H). exists t1, w1. split; [exact Hb |].
    destruct (loss_counter t1 =? 1)%Z eqn:E1.
    + apply Z.eqb_eq in E1. inversion H; subst. left. auto.
    + apply Z.eqb_neq in E1. destruct (epoch =? 0) eqn:E0.
      * apply Nat.eqb_eq in E0. inversion H; subst. left. auto.
      * apply Nat.eqb_neq in E0. right. auto.
  - intros (t1 & w1 & Hb & H). exists t1, w1. split; [exact Hb |].
    destruct H as [([Hc | He] & -> & ->) | (Hc & He & H)].
    + apply Z.eqb_eq in Hc. by rewrite Hc.
    + subst epoch. by destruct (loss_counter t1 =? 1)%Z.
    + apply Z.eqb_neq in Hc. apply Nat.eqb_neq in He. by rewrite Hc, He.
Qed.

(** C3: [train] enters the loop with a stall counter of 0; an epoch that
    completes leaves the counter one higher exactly when its validation
    epoch loss is not strictly below [best_loss], the best validation loss
    recorded so far, and unchanged otherwise; across any stretch of the loop
    the counter never goes down and rises by at most one per epoch.  The
    loop carries that tracker along: what an epoch leaves is what the loop
    returns at a [break] and what the next epoch starts from, so a run of
    [train] that returns ends with the counter at 0 plus one for its stalled
    epoch. *)
Theorem stall_counter_discipline `{T : Torch} (G : gset string)
    (train_loader validation_loader : loader) (crit : criterion)
    (opt : optimizer) (dev : device) :
  (∃ t0, loss_counter t0 = 0%Z ∧ ∀ epochs w,
     train_in G train_loader validation_loader crit opt epochs dev w
     = (resolve G "Report";;
        epoch_loop G train_loader validation_loader crit opt dev (range epochs) t0;;
        mret tt) w) ∧
  (∀ t w t' w',
     epoch_body G train_loader validation_loader crit opt dev t w = (Ret t', w') →
     ∃ w1 m w2,
       phase_body G train_loader validation_loader crit opt dev train_phase t w
       = (Ret t, w1) ∧
       phase_metrics G train_loader validation_loader crit opt dev valid_phase w1
       = (Ret m, w2) ∧
       (PrimFloat.ltb (epoch_loss m) (best_loss t) = false ↔
        loss_counter t' = (loss_counter t + 1)%Z) ∧
       (PrimFloat.ltb (epoch_loss m) (best_loss t) = true ↔
        loss_counter t' = loss_counter t)) ∧
  (∀ es t w t' w',
     epoch_loop G train_loader validation_loader crit opt dev es t w = (Ret t', w') →
     (loss_counter t ≤ loss_counter t' ≤ loss_counter t + Z.of_nat (length es))%Z) ∧
  (∀ epoch es t w t' w',
     epoch_loop G train_loader validation_loader crit opt dev (epoch :: es) t w
     = (Ret t', w') →
     ∃ t1 w1,
       epoch_body G train_loader validation_loader crit opt dev t w
       = (Ret t1, w1) ∧
       (((loss_counter t1 = 1%Z ∨ epoch = 0) ∧ t' = t1 ∧ w' = w1) ∨
        (loss_counter t1 ≠ 1%Z ∧ epoch ≠ 0 ∧
         epoch_loop G train_loader validation_loader crit opt dev es t1 w1
         = (Ret t', w')))) ∧
  (∀ epochs w w',
     (1 ≤ epochs)%Z →
     train_in G train_loader validation_loader crit opt epochs dev w
     = (Ret tt, w') →
     ∃ w1 m w2 t',
       phase_body G train_loader validation_loader crit opt dev train_phase
                  (Tracker 1e6 0) w = (Ret (Tracker 1e6 0), w1) ∧
       phase_metrics G train_loader validation_loader crit opt dev valid_phase w1
       = (Ret m, w2) ∧
       epoch_loop G train_loader validation_loader crit opt dev (range epochs)
                  (Tracker 1e6 0) w = (Ret t', w') ∧
       t' = update_tracker (epoch_loss m) (Tracker 1e6 0) ∧
       loss_counter t'
       = (0 + if PrimFloat.ltb (epoch_loss m) 1e6 then 0 else 1)%Z).
Proof.
  split; [| split; [| split; [| split]]].
  - exists (Tracker 1e6 0). split; reflexivity.
  - intros t w t' w' (w1 & m & w2 & Ht & Hm & -> & _)%epoch_body_Ret.
    exists w1, m, w2. split; [exact Ht |]. split; [exact Hm |].
    rewrite update_tracker_counter.
    destruct (PrimFloat.ltb (epoch_loss m) (best_loss t)); split; split;
      first [ done | lia ].
  - intros es t w t' w'. apply epoch_loop_counter.
  - intros epoch es t w t' w'. apply epoch_loop_cons_Ret.
  - intros epochs w w' Hn H. unfold train_in in H.
    apply bind_Ret in H as ([] & w0 & Hr & H).
    assert (w0 = w) as ->.
    { unfold resolve in Hr. destruct (bound G "Report"); by inversion Hr. }
    apply bind_Ret in H as (t' & w1 & H & Hret). inversion Hret; subst; clear Hret.
    destruct (range_pos epochs Hn) as [es Hes].
    pose proof H as Hloop. rewrite Hes, epoch_loop_first in H.
    apply epoch_body_Ret in H as (wa & m & wb & Ht & Hm & -> & _).
    exists wa, m, wb, (update_tracker (epoch_loss m) (Tracker 1e6 0)).
    split; [exact Ht |]. split; [exact Hm |]. split; [exact Hloop |].
    split; [reflexivity |]. apply update_tracker_counter.
Qed.

Lemma stall_counter_discipline_witness :
  ∃ t' w',
    epoch_loop (T := Scripted.torch 0) with_Report
      [Scripted.batch 1 4] [Scripted.batch 0.5 4]
      (Scripted.crit 0) ["fc.4.weight"] tt [3; 4; 5] (Tracker 0.5 0)
      (Scripted.start 0 Scripted.head_store) = (Ret t', w') ∧
    (∃ t1 w1,
       epoch_body (T := Scripted.torch 0) with_Report
         [Scripted.batch 1 4] [Scripted.batch 0.5 4]
         (Scripted.crit 0) ["fc.4.weight"] tt (Tracker 0.5 0)
         (Scripted.start 0 Scripted.head_store) = (Ret t1, w1) ∧
       (((loss_counter t1 = 1%Z ∨ 3 = 0) ∧ t' = t1 ∧ w' = w1) ∨
        (loss_counter t1 ≠ 1%Z ∧ 3 ≠ 0 ∧
         epoch_loop (T := Scripted.torch 0) with_Report
           [Scripted.batch 1 4] [Scripted.batch 0.5 4]
           (Scripted.crit 0) ["fc.4.weight"] tt [4; 5] t1 w1 = (Ret t', w')))) ∧
    loss_counter t' = (loss_counter (Tracker 0.5 0) + 1)%Z.
Proof.
  pose (r := epoch_loop (T := Scripted.torch 0) with_Report
               [Scripted.batch 1 4] [Scripted.batch 0.5 4]
               (Scripted.crit 0) ["fc.4.weight"] tt [3; 4; 5] (Tracker 0.5 0)
               (Scripted.start 0 Scripted.head_store)).
  assert (∃ t' w', r = (Ret t', w') ∧ loss_counter t' = 1%Z) as He
    by (eexists _, _; split; [vm_compute; reflexivity | reflexivity]).
  destruct He as (t' & w' & He & Hc). subst r. exists t', w'.
  split; [exact He |]. split; [| by rewrite Hc].
  exact (proj1 (proj2 (proj2 (proj2 (stall_counter_discipline _ _ _ _ _ _))))
           _ _ _ _ _ _ He).
Defined.

(** C6: [train] enters the loop with [best_loss] at the sentinel 1e6; when
    the validation epoch loss of epoch 0 is strictly below the sentinel,
    epoch 0 ends with [best_loss] equal to that loss and the stall counter
    still 0, and the loop returns right there whatever the epoch budget;
    for any tracker, improved or not, the loop over a range that starts
    at epoch 0 is that one epoch. *)
Theorem sentinel_then_first_epoch `{T : Torch} (G : gset string)
    (train_loader validation_loader : loader) (crit : criterion)
    (opt : optimizer) (dev : device) :
  (∀ epochs w,
     train_in G train_loader validation_loader crit opt epochs dev w
     = (resolve G "Report";;
        epoch_loop G train_loader validation_loader crit opt dev (range epochs)
                   (Tracker 1e6 0);;
        mret tt) w) ∧
  (∀ es w w1 m w2 w',
     phase_body G train_loader validation_loader crit opt dev train_phase
                (Tracker 1e6 0) w = (Ret (Tracker 1e6 0), w1) →
     phase_metrics G train_loader validation_loader crit opt dev valid_phase w1
     = (Ret m, w2) →
     PrimFloat.ltb (epoch_loss m) 1e6 = true →
     log_pass G validation_loader crit valid_phase m
              (Tracker (epoch_loss m) 0) w2 = (Ret tt, w') →
     epoch_loop G train_loader validation_loader crit opt dev (0 :: es)
                (Tracker 1e6 0) w
     = (Ret (Tracker (epoch_loss m) 0), w')) ∧
  (∀ es t w,
     epoch_loop G train_loader validation_loader crit opt dev (0 :: es) t w
     = epoch_body G train_loader validation_loader crit opt dev t w).
Proof.
  split; [| split].
  - reflexivity.
  - intros es w w1 m w2 w' H1 Hm Hlt Hl.
    rewrite epoch_loop_first. apply epoch_body_Ret.
    exists w1, m, w2. rewrite update_tracker_improved by exact Hlt.
    done.
  - intros es t w. apply epoch_loop_first.
Qed.

Lemma sentinel_then_first_epoch_witness :
  ∃ m w',
    epoch_loop (T := Scripted.torch 0) with_Report
      [Scripted.batch 1 4; Scripted.batch 3 4] [Scripted.batch 0.5 4]
      (Scripted.crit 0) ["fc.4.weight"] tt [0; 1; 2; 3; 4] (Tracker 1e6 0)
      (Scripted.start 0 Scripted.head_store)
    = (Ret (Tracker (epoch_loss m) 0), w') ∧
    epoch_loss m = 2%float.
Proof.
  assert (∃ w1 m w2 w',
    phase_body (T := Scripted.torch 0) with_Report
      [Scripted.batch 1 4; Scripted.batch 3 4] [Scripted.batch 0.5 4]
      (Scripted.crit 0) ["fc.4.weight"] tt train_phase (Tracker 1e6 0)
      (Scripted.start 0 Scripted.head_store) = (Ret (Tracker 1e6 0), w1) ∧
    phase_metrics (T := Scripted.torch 0) with_Report
      [Scripted.batch 1 4; Scripted.batch 3 4] [Scripted.batch 0.5 4]
      (Scripted.crit 0) ["fc.4.weight"] tt valid_phase w1 = (Ret m, w2) ∧
    PrimFloat.ltb (epoch_loss m) 1e6 = true ∧
    log_pass (T := Scripted.torch 0) with_Report [Scripted.batch 0.5 4]
      (Scripted.crit 0) valid_phase m (Tracker (epoch_loss m) 0) w2
    = (Ret tt, w') ∧
    epoch_loss m = 2%float) as He.
  { eexists _, _, _, _.
    split; [vm_compute; reflexivity |].
    split; [vm_compute; reflexivity |].
    split; [vm_compute; reflexivity |].
    split; [vm_compute; reflexivity | reflexivity]. }
  destruct He as (w1 & m & w2 & w' & H1 & H2 & H3 & H4 & H5).
  exists m, w'. split; [| exact H5].
  exact (proj1 (proj2 (sentinel_then_first_epoch _ _ _ _ _ _))
           _ _ _ _ _ _ H1 H2 H3 H4).
Defined.

(** ** What [test] reports *)
Section Test.
Context `{T : Torch}.
Variables (G : gset string) (crit : criterion) (dev : device).

Lemma test_body_Ret pos b acc w acc' w' :
  test_body G crit dev pos b acc w = (Ret acc', w') →
  calls w' = calls w ∧
  ∃ ol, loss_of crit dev b ol ∧ acc' = tally dev acc b ol.
Proof.
  unfold test_body. intros H.
  apply bind_Ret in H as (o & w1 & (Ho & Hc & _)%model_call_Ret & H).
  apply bind_Ret in H as (l & w2 & Hl & H).
  assert (w2 = w1) as -> by (unfold lift in Hl; by inversion Hl).
  apply lift_Ret in Hl.
  unfold resolve in H. destruct (bound G "torch"); [| discriminate].
  inversion H; subst. split; [done |].
  exists (o, l). split; [| done]. split; [by eexists _, _, _ | done].
Qed.

Lemma test_batches_Ret ds : ∀ pos acc w acc' w',
  for_enumerate (test_body G crit dev) pos ds acc w = (Ret acc', w') →
  calls w' = calls w ∧
  ∃ seen, losses_of crit dev ds seen ∧ acc' = tally_all dev acc ds seen.
Proof.
  induction ds as [|b ds IH]; intros pos acc w acc' w' H; simpl in H.
  - inversion H; subst. split; [done |]. exists []. split; [constructor | done].
  - apply bind_Ret in H as (acc1 & w1 & Hb & H).
    apply test_body_Ret in Hb as (Hc1 & ol & Hol & ->).
    apply IH in H as (Hc2 & seen & Hseen & ->).
    split; [congruence |].
    exists (ol :: seen). split; [by constructor | done].
Qed.

(** Both reported numbers are running sums over [len(test_loader)]. *)
Lemma test_in_Ret ds w w' :
  test_in G ds crit dev w = (Ret tt, w') →
  ∃ seen, losses_of crit dev ds seen ∧
    calls w' = calls w ++
      [ EvEvalMode;
        EvTestLoss ((tally_all dev (0%float, 0%Z) ds seen).1
                    / float_of_Z (Z.of_nat (length ds)));
        EvTestAcc (float_of_Z (tally_all dev (0%float, 0%Z) ds seen).2
                   / float_of_Z (Z.of_nat (length ds))) ].
Proof.
  unfold test_in. intros H.
  apply bind_Ret in H as ([] & w1 & Hm & H).
  apply bind_Ret in H as (acc & w2 & Hacc & H).
  apply test_batches_Ret in Hacc as (Hc & seen & Hseen & ->).
  exists seen. split; [done |].
  destruct (length ds) eqn:E; [discriminate |].
  unfold resolve in H. destruct (bound G "logger"); [| discriminate].
  inversion H; subst; clear H. inversion Hm; subst; clear Hm.
  simpl in *. rewrite Hc. simpl. by rewrite <- !app_assoc.
Qed.

End Test.

(** [test] completes when the names it reads are bound, the loader is not
    empty and the library calls answer. *)
Section TestReturns.
Context `{T : Torch}.
Variables (G : gset string) (crit : criterion) (dev : device).
Hypothesis torch_bound : bound G "torch" = true.
Hypothesis logger_bound : bound G "logger" = true.

Lemma test_batches_return ds : answers crit dev ds → ∀ pos acc w,
  ∃ acc' w', for_enumerate (test_body G crit dev) pos ds acc w = (Ret acc', w').
Proof.
  induction ds as [|b ds IH]; intros Hds pos acc w; simpl; [by eexists _, _ |].
  destruct (Hds b) as [Hmodel Hcrit]; [by left |].
  destruct (Hmodel (training w) (data <$> params w) (bufs w)) as (o & bf' & Ho).
  destruct (Hcrit o) as (l & Hl).
  edestruct IH as (acc' & w' & Hrest);
    [intros b' Hb'; apply Hds; by right |].
  exists acc', w'. apply bind_Ret. eexists _, _. split; [| exact Hrest].
  unfold test_body, model_call, mbind, M_bind, lift, resolve.
  rewrite Ho, Hl, torch_bound. reflexivity.
Qed.

Lemma test_in_returns ds w :
  ds ≠ [] → answers crit dev ds → ∃ w', test_in G ds crit dev w = (Ret tt, w').
Proof.
  intros Hne Hds. unfold test_in, resolve. rewrite logger_bound.
  destruct (test_batches_return ds Hds 0 (0%float, 0%Z) (set_mode false w).2)
    as (acc & w2 & Hacc).
  destruct ds as [|b ds']; [done |].
  eexists. apply bind_Ret. eexists tt, _. split; [reflexivity |].
  apply bind_Ret. eexists _, _. split; [exact Hacc |].
  reflexivity.
Qed.

End TestReturns.

(** C2, as the code has it: over a feeder of exactly 3 batches of 8
    samples whose losses are 0.1, 0.2 and 0.3 and whose predictions all
    equal their labels, [test] completes and logs
    [total_loss = (0.1+0.2+0.3)*8/3] and [total_acc = 24/3 = 8.0], the 24
    correct predictions being divided by the 3 batches. *)
Theorem test_reports_per_batch `{T : Torch} (G : gset string)
    (test_loader : loader) (crit : criterion) (dev : device) (w : world) :
  bound G "torch" = true →
  bound G "logger" = true →
  answers crit dev test_loader →
  length test_loader = 3 →
  Forall (λ b, size0 (inputs_to dev b.1) = 8%Z) test_loader →
  (∀ seen, losses_of crit dev test_loader seen →
     (λ ol, item ol.2) <$> seen = [0.1; 0.2; 0.3]%float ∧
     Forall2 (λ b ol, count_eq (torch_max1 ol.1) (labels_to dev b.2) = 8%Z)
             test_loader seen) →
  ∃ w',
    test_in G test_loader crit dev w = (Ret tt, w') ∧
    calls w' = calls w ++
      [ EvEvalMode;
        EvTestLoss ((0.1 + 0.2 + 0.3) * 8 / 3)%float;
        EvTestAcc 8%float ].
Proof.
  intros Htorch Hlogger Hanswers Hlen Hsize Hloss.
  destruct (test_in_returns G crit dev Htorch Hlogger test_loader w)
    as (w' & Hrun); [by destruct test_loader | exact Hanswers |].
  exists w'. split; [exact Hrun |].
  apply test_in_Ret in Hrun as (seen & Hseen & ->).
  destruct (Hloss seen Hseen) as (Hitems & Hhits). clear Hloss Hanswers.
  rewrite Hlen.
  destruct test_loader as [|b1 [|b2 [|b3 [|]]]]; try discriminate.
  inversion Hhits as [|? ol1 ? seen1 Hh1 Hhits1]; subst.
  inversion Hhits1 as [|? ol2 ? seen2 Hh2 Hhits2]; subst.
  inversion Hhits2 as [|? ol3 ? seen3 Hh3 Hhits3]; subst.
  inversion Hhits3; subst.
  inversion Hsize as [|? ? Hs1 Hsize1]; subst.
  inversion Hsize1 as [|? ? Hs2 Hsize2]; subst.
  inversion Hsize2 as [|? ? Hs3 _]; subst.
  simpl in Hitems. injection Hitems as Hi1 Hi2 Hi3.
  simpl. unfold tally; simpl.
  rewrite Hs1, Hs2, Hs3, Hi1, Hi2, Hi3, Hh1, Hh2, Hh3.
  do 3 f_equal.
Qed.

Lemma test_reports_per_batch_witness :
  ∃ w',
    test (T := Scripted.torch 0)
      [Scripted.batch 0.1 8; Scripted.batch 0.2 8; Scripted.batch 0.3 8]
      (Scripted.crit 0) tt (Scripted.start 0 ∅) = (Ret tt, w') ∧
    calls w' = [] ++
      [ EvEvalMode;
        EvTestLoss ((0.1 + 0.2 + 0.3) * 8 / 3)%float;
        EvTestAcc 8%float ].
Proof.
  apply (test_reports_per_batch (T := Scripted.torch 0) module_globals
           [Scripted.batch 0.1 8; Scripted.batch 0.2 8; Scripted.batch 0.3 8]
           (Scripted.crit 0) tt (Scripted.start 0 ∅)).
  - vm_compute. reflexivity.
  - vm_compute. reflexivity.
  - intros b _. split; [intros tr vals bf | intros o]; repeat eexists.
  - reflexivity.
  - repeat constructor.
  - intros seen Hseen.
    inversion Hseen as [|? [o1 l1] ? s1 [(? & ? & ? & Ho1) Hl1] Hs1]; subst.
    inversion Hs1 as [|? [o2 l2] ? s2 [(? & ? & ? & Ho2) Hl2] Hs2]; subst.
    inversion Hs2 as [|? [o3 l3] ? s3 [(? & ? & ? & Ho3) Hl3] Hs3]; subst.
    inversion Hs3; subst.
    simpl in *. unfold Scripted.crit in *.
    inversion Ho1; inversion Ho2; inversion Ho3; subst.
    inversion Hl1; inversion Hl2; inversion Hl3; subst.
    split; [reflexivity | repeat constructor].
Defined.

(** C2, as stated: the accuracy logged in that scenario is not 1.0. *)
Lemma test_accuracy_is_not_one :
  ¬ ∃ w',
    test (T := Scripted.torch 0)
      [Scripted.batch 0.1 8; Scripted.batch 0.2 8; Scripted.batch 0.3 8]
      (Scripted.crit 0) tt (Scripted.start 0 ∅) = (Ret tt, w') ∧
    calls w' =
      [ EvEvalMode;
        EvTestLoss ((0.1 + 0.2 + 0.3) * 8 / 3)%float;
        EvTestAcc 1%float ].
Proof.
  intros (w' & Hrun & Hcalls).
  assert (calls w' = [ EvEvalMode;
                       EvTestLoss ((0.1 + 0.2 + 0.3) * 8 / 3)%float;
                       EvTestAcc 8%float ]) as Hreal.
  { revert Hrun. vm_compute. intros Hrun. inversion Hrun. reflexivity. }
  rewrite Hreal in Hcalls. revert Hcalls. vm_compute. intros Hcalls.
  discriminate Hcalls.
Qed.

(** ** What the whole of [train] keeps, given what its calls keep *)
Section Lifting.
Context `{T : Torch} {X : Type} (obs : world → X).
Variables (G : gset string) (train_loader validation_loader : loader).
Variables (crit : criterion) (opt : optimizer) (dev : device).
Hypothesis keeps_model : ∀ x, keeps obs (model_call x).
Hypothesis keeps_zero : keeps obs (zero_grad opt).
Hypothesis keeps_back : ∀ l, keeps obs (backward l).
Hypothesis keeps_opt_step : keeps obs (step opt).
Hypothesis keeps_event : ∀ e, keeps obs (emit e).
Hypothesis keeps_mode : ∀ b, keeps obs (set_mode b).







End Lifting.

(** ** Parameters outside the optimizer *)
Section Frame.
Context `{T : Torch}.
Variables (opt : optimizer) (k : string).
Hypothesis outside : k ∉ opt.










End Frame.

(** ** The model that [net] builds and the optimizer that [main] gives it *)
Section Net.
Context `{T : Torch}.
Variables (resnet50 : pretrained) (init : string → tensor).

Lemma net_head_keys :
  main_optimizer (net resnet50 init)
  = [ "fc.0.weight"; "fc.0.bias"; "fc.2.weight"; "fc.2.bias";
      "fc.4.weight"; "fc.4.bias" ].
Proof. reflexivity. Qed.

Lemma backbone_outside_optimizer k :
  under_fc k = false → k ∉ main_optimizer (net resnet50 init).
Proof.
  intros Hk Hin. rewrite net_head_keys in Hin.
  repeat (apply elem_of_cons in Hin as [-> | Hin]; [by vm_compute in Hk |]).
  by apply elem_of_nil in Hin.
Qed.

Lemma lookup_foldr_insert_other {A} (f : string → A) (keys : list string)
    (base : gmap string A) k :
  k ∉ keys → foldr (λ k' ps, <[k' := f k']> ps) base keys !! k = base !! k.
Proof.
  induction keys as [|k' keys IH]; intros Hk; simpl; [done |].
  apply not_elem_of_cons in Hk as [Hne Hk].
  rewrite lookup_insert_ne by done. by apply IH.
Qed.


Lemma lookup_foldr_insert_in {A} (f : string → A) (keys : list string)
    (base : gmap string A) k :
  k ∈ keys → foldr (λ k' ps, <[k' := f k']> ps) base keys !! k = Some (f k).
Proof.
  induction keys as [|k' keys IH]; intros Hk; simpl.
  - by apply elem_of_nil in Hk.
  - destruct (decide (k' = k)) as [-> | Hne]; [by rewrite lookup_insert_eq |].
    rewrite lookup_insert_ne by done. apply IH.
    apply elem_of_cons in Hk as [-> | Hk]; done.
Qed.

Lemma net_lookup_head k :
  k ∈ main_optimizer (net resnet50 init) →
  m_params (net resnet50 init) !! k = Some (MkParameter (init k) true None).
Proof.
  intros Hk. unfold net; cbn [m_params].
  by rewrite (lookup_foldr_insert_in (λ k', MkParameter (init k') true None)).
Qed.

End Net.

(** ** Parameters inside the optimizer *)
Section Head.
Context `{T : Torch}.







End Head.





(** ** The head's layers *)

(** C8, as the code has it: the head declares a 32-unit linear layer
    followed by a final linear layer whose [in_features] is 128, not 32;
    in the [Sequential] the final layer is called with the 32-wide output
    of that layer's ReLU, so the forward pass raises at the final layer. *)
Theorem head_widths_disagree `{T : Torch}
    (resnet50 : pretrained) (init : string → tensor) :
  let head := fc (net resnet50 init) in
  let n_features := fc_in_features resnet50 in
  head !! 2 = Some (Linear 128 32) ∧
  head !! 4 = Some (Linear 128 5) ∧
  last head = Some (Linear 128 5) ∧
  (128 ≠ 32)%Z ∧
  arriving head n_features = [n_features; 128; 128; 32; 32]%Z ∧
  sequential_forward head n_features
  = Raise (RuntimeError "mat1 and mat2 shapes cannot be multiplied").
Proof.
  cbv zeta. unfold net; cbn [fc].
  split; [reflexivity |]. split; [reflexivity |]. split; [reflexivity |].
  split; [lia |].
  split; simpl; rewrite Z.eqb_refl; reflexivity.
Qed.

(** C8, as stated: the final layer is not fed by the 128-unit layer, and
    the 32-unit layer is not dead, for without it and its ReLU the forward
    pass goes through. *)
Lemma final_layer_reads_the_32_unit_layer :
  let head := fc (net (Scripted.resnet 0) (λ _, 7%Z)) in
  arriving head 2048 !! 4 ≠ Some 128%Z ∧
  arriving head 2048 !! 4 = Some 32%Z ∧
  sequential_forward (take 2 head ++ drop 4 head) 2048 = Ret 5%Z ∧
  sequential_forward head 2048 ≠ Ret 5%Z.
Proof. vm_compute. repeat split; discriminate. Qed.

(** ** The loaders *)

Lemma length_string_app (a b : string) :
  String.length (a +:+ b) = String.length a + String.length b.
Proof. induction a as [|c a IH]; simpl; [done | by rewrite IH]. Qed.

Lemma path_join_test_is_not_train data :
  Data.path_join data "test" ≠ Data.path_join data "train".
Proof.
  intros H. apply (f_equal String.length) in H. revert H.
  unfold Data.path_join. simpl.
  destruct (String.eqb data "" || Data.ends_with_sep data)%bool;
    rewrite ?length_string_app; simpl; lia.
Qed.

(** C7: the training feeder reads the test folder ([root/test]), not
    [root/train]; it alone gets the randomized augmentations, while the test
    and validation feeders get the deterministic resize and tensor
    conversion. *)
Theorem train_feeder_reads_test_folder (data : string) (batch_size : Z) :
  let '(train_data_loader, test_data_loader, validation_data_loader) :=
    Data.create_data_loaders data batch_size in
  Data.root (Data.dataset train_data_loader) = Data.path_join data "test" ∧
  Data.root (Data.dataset train_data_loader) ≠ Data.path_join data "train" ∧
  Data.root (Data.dataset test_data_loader) = Data.path_join data "test" ∧
  Data.root (Data.dataset validation_data_loader) = Data.path_join data "valid" ∧
  existsb Data.randomized
    (Data.transform_of (Data.dataset train_data_loader)) = true ∧
  Data.transform_of (Data.dataset test_data_loader)
  = [Data.Resize 224 224; Data.ToTensor] ∧
  Data.transform_of (Data.dataset validation_data_loader)
  = [Data.Resize 224 224; Data.ToTensor] ∧
  existsb Data.randomized
    (Data.transform_of (Data.dataset test_data_loader)) = false ∧
  existsb Data.randomized
    (Data.transform_of (Data.dataset validation_data_loader)) = false.
Proof.
  simpl. split; [reflexivity |]. split; [apply path_join_test_is_not_train |].
  repeat split; reflexivity.
Qed.

(** ** The default of [--output_dir] *)

Lemma parse_args_keeps_output_dir argv : ∀ defaults,
  forallb (λ g, negb (Entry.gives_output_dir g)) argv = true →
  Entry.output_dir (Entry.parse_args defaults argv) = Entry.output_dir defaults.
Proof.
  unfold Entry.parse_args.
  induction argv as [|g argv IH]; intros defaults H; simpl in *; [done |].
  apply andb_true_iff in H as [Hg H]. rewrite IH by exact H.
  by destruct g.
Qed.

(** C9, as the code has it: the default of [--output_dir] is read from the
    environment, under the key ['TrainedModels/model.pth'], while the parser
    is built.  Without that variable the script raises [KeyError] whatever
    the command line, the flag included; with it (and with [dogImages]), a
    command line that omits the flag gets the variable's value. *)
Theorem output_dir_default_is_read_from_environ
    (environ : gmap string string) (argv : list Entry.given) :
  (environ !! "TrainedModels/model.pth" = None →
   ∃ key, Entry.entry environ argv = Raise (KeyError key)) ∧
  (∀ d o,
     environ !! "dogImages" = Some d →
     environ !! "TrainedModels/model.pth" = Some o →
     forallb (λ g, negb (Entry.gives_output_dir g)) argv = true →
     ∃ ns, Entry.entry environ argv = Ret ns ∧ Entry.output_dir ns = o).
Proof.
  unfold Entry.entry, Entry.build_parser, Entry.environ_get. split.
  - intros Ho. rewrite Ho.
    destruct (environ !! "dogImages"); eauto.
  - intros d o Hd Ho Hargv. rewrite Hd, Ho.
    eexists. split; [reflexivity |].
    by rewrite parse_args_keeps_output_dir.
Qed.

Lemma output_dir_default_is_read_from_environ_witness :
  (∃ key, Entry.entry {[ "dogImages" := "/data" ]}
            [Entry.GOutputDir "/out/model.pth"] = Raise (KeyError key)) ∧
  (∃ ns, Entry.entry {[ "dogImages" := "/data";
                        "TrainedModels/model.pth" := "/env/model.pth" ]}
           [Entry.GEpochs 2] = Ret ns ∧
         Entry.output_dir ns = "/env/model.pth").
Proof.
  split.
  - apply (proj1 (output_dir_default_is_read_from_environ
                    {[ "dogImages" := "/data" ]}
                    [Entry.GOutputDir "/out/model.pth"])).
    vm_compute. reflexivity.
  - apply (proj2 (output_dir_default_is_read_from_environ
                    {[ "dogImages" := "/data";
                       "TrainedModels/model.pth" := "/env/model.pth" ]}
                    [Entry.GEpochs 2]) "/data" "/env/model.pth").
    + vm_compute. reflexivity.
    + vm_compute. reflexivity.
    + reflexivity.
Defined.

(** C9, as stated: a command line without [--output_dir] can end up with
    a value that comes from the environment and is not the literal path. *)
Lemma omitted_output_dir_comes_from_environ :
  ¬ (∀ (environ : gmap string string) (argv : list Entry.given)
       (ns : Entry.namespace),
       forallb (λ g, negb (Entry.gives_output_dir g)) argv = true →
       Entry.entry environ argv = Ret ns →
       environ !! "TrainedModels/model.pth" ≠ Some (Entry.output_dir ns)).
Proof.
  intros H.
  apply (H {[ "dogImages" := "/data";
              "TrainedModels/model.pth" := "/env/model.pth" ]}
           [Entry.GEpochs 2]
           (Entry.Namespace None None (Some 2%Z) "/data" "/env/model.pth")).
  - reflexivity.
  - vm_compute. reflexivity.
  - vm_compute. reflexivity.
Qed.

(** * Further properties of the code *)

(** ** Empty loaders and empty budgets *)
Section Edges.
Context `{T : Torch}.
Variables (G : gset string) (crit : criterion) (opt : optimizer) (dev : device).

Lemma keeps_run {X A} (obs : world → X) (m : M A) w r w1 :
  keeps obs m → m w = (r, w1) → obs w1 = obs w.
Proof. intros Hk Hm. specialize (Hk w). by rewrite Hm in Hk. Qed.

Lemma range_nonpositive n : (n ≤ 0)%Z → range n = [].
Proof. intros Hn. unfold range. by replace (Z.to_nat n) with 0 by lia. Qed.

(** X1: [test] on an empty loader raises [ZeroDivisionError] at line 93, in
    every namespace: the model has been put in evaluation mode, nothing else
    has changed and no result line is logged. *)
Theorem test_empty_loader (w : world) :
  ∃ w',
    test_in G [] crit dev w = (Raise ZeroDivisionError, w') ∧
    calls w' = calls w ++ [EvEvalMode] ∧
    training w' = false ∧
    learnt w' = learnt w ∧ bufs w' = bufs w.
Proof. eexists. split; [reflexivity |]. done. Qed.

(** X2: with [Report] bound and an epoch budget of 0 or less, [train]
    returns at once: no mode change, no batch, no log line. *)
Theorem train_nonpositive_budget (train_loader validation_loader : loader)
    (epochs : Z) (w : world) :
  bound G "Report" = true →
  (epochs ≤ 0)%Z →
  train_in G train_loader validation_loader crit opt epochs dev w = (Ret tt, w).
Proof.
  intros HR Hn. unfold train_in, resolve. rewrite HR, range_nonpositive by exact Hn.
  reflexivity.
Qed.

(** X3: with [Report] bound and a budget of at least 1, an empty training
    loader makes [train] raise [ZeroDivisionError] at line 55 of the first
    training phase: the model is left in training mode, the validation data
    is never looked at and nothing is logged. *)
Theorem train_empty_training_loader (validation_loader : loader)
    (epochs : Z) (w : world) :
  bound G "Report" = true →
  (1 ≤ epochs)%Z →
  ∃ w',
    train_in G [] validation_loader crit opt epochs dev w
    = (Raise ZeroDivisionError, w') ∧
    calls w' = calls w ++ [EvTrainMode] ∧
    training w' = true ∧
    learnt w' = learnt w ∧ bufs w' = bufs w.
Proof.
  intros HR Hn. destruct (range_pos epochs Hn) as [es Hes].
  unfold train_in, resolve. rewrite HR, Hes.
  eexists. split; [reflexivity |]. done.
Qed.

(** X4: with an empty validation loader, a first training phase that
    completes is followed by [ZeroDivisionError] at line 55 of the
    validation phase: [train] aborts with the parameters as the training
    phase left them, the model in evaluation mode, and no [best_loss] line
    logged. *)
Theorem train_empty_validation_loader (train_loader : loader)
    (epochs : Z) (w w1 : world) :
  bound G "Report" = true →
  (1 ≤ epochs)%Z →
  phase_body G train_loader [] crit opt dev train_phase (Tracker 1e6 0) w
  = (Ret (Tracker 1e6 0), w1) →
  ∃ w',
    train_in G train_loader [] crit opt epochs dev w
    = (Raise ZeroDivisionError, w') ∧
    calls w' = calls w1 ++ [EvEvalMode] ∧
    training w' = false ∧
    learnt w' = learnt w1 ∧ bufs w' = bufs w1.
Proof.
  intros HR Hn H1. destruct (range_pos epochs Hn) as [es Hes].
  unfold train_in, resolve. rewrite HR, Hes.
  unfold mbind at 1, M_bind at 1. unfold mret at 1, M_ret at 1.
  unfold mbind at 1, M_bind at 1. rewrite epoch_loop_first.
  unfold epoch_body. unfold mbind at 1, M_bind at 1. rewrite H1.
  eexists. split; [reflexivity |]. done.
Qed.

End Edges.

Lemma train_nonpositive_budget_witness :
  train_in (T := Scripted.torch 2) with_Report
    [Scripted.batch 1 4] [Scripted.batch 0.5 4] (Scripted.crit 2)
    ["fc.4.weight"] 0 tt (Scripted.start 2 ∅)
  = (Ret tt, Scripted.start 2 ∅).
Proof.
  apply (train_nonpositive_budget (T := Scripted.torch 2) with_Report).
  - vm_compute. reflexivity.
  - lia.
Defined.

Lemma train_empty_training_loader_witness :
  ∃ w',
    train_in (T := Scripted.torch 2) with_Report [] [Scripted.batch 0.5 4]
      (Scripted.crit 2) ["fc.4.weight"] 3 tt (Scripted.start 2 ∅)
    = (Raise ZeroDivisionError, w') ∧
    calls w' = calls (Scripted.start 2 ∅) ++ [EvTrainMode] ∧
    training w' = true ∧
    learnt w' = learnt (Scripted.start 2 ∅) ∧
    bufs w' = bufs (Scripted.start 2 ∅).
Proof.
  apply (train_empty_training_loader (T := Scripted.torch 2) with_Report).
  - vm_compute. reflexivity.
  - lia.
Defined.

Lemma train_empty_validation_loader_witness :
  ∃ w1 w' : @world (Scripted.torch 2),
    train_in (T := Scripted.torch 2) with_Report [Scripted.batch 1 4] []
      (Scripted.crit 2) ["fc.4.weight"] 3 tt
      (Scripted.start 2 ∅)
    = (Raise ZeroDivisionError, w') ∧
    calls w' = calls w1 ++ [EvEvalMode] ∧
    steps_taken (calls w1) = 1.
Proof.
  assert (∃ w1,
    phase_body (T := Scripted.torch 2) with_Report [Scripted.batch 1 4] []
      (Scripted.crit 2) ["fc.4.weight"] tt train_phase (Tracker 1e6 0)
      (Scripted.start 2 ∅) = (Ret (Tracker 1e6 0), w1) ∧
    steps_taken (calls w1) = 1) as (w1 & H1 & Hs).
  { eexists. split; [vm_compute; reflexivity | reflexivity]. }
  destruct (train_empty_validation_loader (T := Scripted.torch 2) with_Report
              (Scripted.crit 2) ["fc.4.weight"] tt [Scripted.batch 1 4] 3
              (Scripted.start 2 ∅) w1)
    as (w' & Hrun & Hcalls & _); [vm_compute; reflexivity | lia | exact H1 |].
  exists w1, w'. split; [exact Hrun |]. split; [exact Hcalls | exact Hs].
Defined.

(** ** What evaluation leaves alone *)
Section Quiet.
Context `{T : Torch} {X : Type} (obs : world → X).
Variables (G : gset string) (crit : criterion) (dev : device).
Hypothesis quiet_model : ∀ x, keeps obs (model_call x).
Hypothesis quiet_event : ∀ e, is_update e = false → keeps obs (emit e).

Lemma quiet_valid_batch opt tot pos b acc :
  keeps obs (batch_body G valid_phase crit opt dev tot pos b acc).
Proof.
  unfold batch_body.
  apply keeps_bind; [apply quiet_model | intros o].
  apply keeps_bind; [apply keeps_lift | intros l].
  apply keeps_bind; [apply keeps_ret | intros _; repeat keeps_step].
Qed.

Lemma quiet_log_pass ds ph m t : keeps obs (log_pass G ds crit ph m t).
Proof.
  unfold log_pass. apply keeps_bind; [apply keeps_resolve | intros _].
  apply keeps_for_enumerate. intros pos b _.
  apply keeps_bind; [apply quiet_model | intros o].
  apply keeps_bind; [apply keeps_lift | intros _].
  apply keeps_bind; [apply keeps_resolve | intros _; by apply quiet_event].
Qed.

Lemma quiet_test_body pos b acc : keeps obs (test_body G crit dev pos b acc).
Proof.
  unfold test_body.
  apply keeps_bind; [apply quiet_model | intros o].
  apply keeps_bind; [apply keeps_lift | intros l].
  repeat keeps_step.
Qed.

(** [test] once line 80 is past. *)
Lemma quiet_test_rest ds :
  keeps obs
    (acc ← for_enumerate (test_body G crit dev) 0 ds (0%float, 0%Z);
     match length ds with
     | O => raise ZeroDivisionError
     | S _ =>
         resolve G "logger";;
         emit (EvTestLoss (acc.1 / float_of_Z (Z.of_nat (length ds))));;
         resolve G "logger";;
         emit (EvTestAcc (float_of_Z acc.2 / float_of_Z (Z.of_nat (length ds))))
     end).
Proof.
  apply keeps_bind.
  - apply keeps_for_enumerate. intros. apply quiet_test_body.
  - intros acc. destruct (length ds); [apply keeps_raise |].
    apply keeps_bind; [apply keeps_resolve | intros _].
    apply keeps_bind; [by apply quiet_event | intros _].
    apply keeps_bind; [apply keeps_resolve | intros _; by apply quiet_event].
Qed.

Hypothesis quiet_mode : ∀ b, keeps obs (set_mode b).

Lemma quiet_valid_metrics tl vl opt :
  keeps obs (phase_metrics G tl vl crit opt dev valid_phase).
Proof.
  unfold phase_metrics.
  apply keeps_bind; [apply quiet_mode | intros _].
  apply keeps_bind.
  - apply keeps_for_enumerate. intros. apply quiet_valid_batch.
  - intros acc. destruct (length _); auto with keeps.
Qed.

Lemma quiet_valid_phase tl vl opt t :
  keeps obs (phase_body G tl vl crit opt dev valid_phase t).
Proof.
  unfold phase_body.
  apply keeps_bind; [apply quiet_valid_metrics | intros m].
  apply keeps_bind; [apply quiet_log_pass | intros _; apply keeps_ret].
Qed.

Lemma quiet_test_in ds : keeps obs (test_in G ds crit dev).
Proof.
  unfold test_in. apply keeps_bind; [apply quiet_mode | intros _].
  apply quiet_test_rest.
Qed.

End Quiet.

Section Evaluation.
Context `{T : Torch}.
Variables (G : gset string) (crit : criterion) (dev : device).

Lemma learnt_model_call x : keeps learnt (model_call x).
Proof.
  intros w. unfold model_call.
  by destruct (call_model (training w) (data <$> params w) (bufs w) x).
Qed.

Lemma training_model_call x : keeps training (model_call x).
Proof.
  intros w. unfold model_call.
  by destruct (call_model (training w) (data <$> params w) (bufs w) x).
Qed.

(** X5: the validation phase of an epoch, its second logging pass
    included, changes no Parameter object and no optimizer statistic and
    calls none of [zero_grad], [backward] and [step], however it ends. *)
Theorem validation_updates_nothing (train_loader validation_loader : loader)
    (opt : optimizer) (t : tracker) (w : world) :
  let w' := (phase_body G train_loader validation_loader crit opt dev
                        valid_phase t w).2 in
  learnt w' = learnt w ∧ count is_update w' = count is_update w.
Proof.
  split.
  - apply (quiet_valid_phase learnt); auto using learnt_model_call; by intros ? ?.
  - apply (quiet_valid_phase (count is_update)).
    + apply keeps_model_call.
    + intros e He. by apply keeps_emit.
    + intros b w0. rewrite count_set_mode. destruct b; simpl; lia.
Qed.

(** X6: [test] changes no Parameter object and no optimizer statistic,
    calls none of [zero_grad], [backward] and [step], and leaves the model
    in evaluation mode, whether it completes or raises. *)
Theorem test_updates_nothing (test_loader : loader) (w : world) :
  let w' := (test_in G test_loader crit dev w).2 in
  learnt w' = learnt w ∧
  count is_update w' = count is_update w ∧
  training w' = false.
Proof.
  split; [| split].
  - apply (quiet_test_in learnt); auto using learnt_model_call; by intros ? ?.
  - apply (quiet_test_in (count is_update)).
    + apply keeps_model_call.
    + intros e He. by apply keeps_emit.
    + intros b w0. rewrite count_set_mode. destruct b; simpl; lia.
  - cbv zeta. unfold test_in. rewrite keeps_after; [reflexivity |].
    intros _. apply (quiet_test_rest training).
    + apply training_model_call.
    + by intros e _ w0.
Qed.

End Evaluation.

(** ** Optimizer steps and log lines of a run *)
Section Steps.
Context `{T : Torch}.
Variables (G : gset string) (train_loader validation_loader : loader).
Variables (crit : criterion) (opt : optimizer) (dev : device).

Local Abbreviation steps := (count is_step).

Lemma atmost_bind {A B} (m : M A) (k : A → M B) n1 n2 :
  (∀ w, steps (m w).2 ≤ steps w + n1) →
  (∀ a w, steps (k a w).2 ≤ steps w + n2) →
  ∀ w, steps ((m ≫= k) w).2 ≤ steps w + (n1 + n2).
Proof.
  intros Hm Hk w. unfold mbind, M_bind. specialize (Hm w).
  destruct (m w) as [[a|e] w1]; simpl in *.
  - specialize (Hk a w1). lia.
  - lia.
Qed.

Lemma atmost_keeps {A} (m : M A) : keeps steps m → ∀ w, steps (m w).2 ≤ steps w + 0.
Proof. intros Hk w. rewrite Hk. lia. Qed.

Lemma steps_update_block l p q w :
  steps ((zero_grad opt;; backward l;; emit (EvRecord p q);; step opt) w).2
  ≤ steps w + 1.
Proof.
  revert w. apply (atmost_bind _ _ 0 1).
  { apply atmost_keeps. by apply keeps_zero_grad. }
  intros _. apply (atmost_bind _ _ 0 1).
  { apply atmost_keeps. by apply keeps_backward. }
  intros _. apply (atmost_bind _ _ 0 1).
  { apply atmost_keeps. by apply keeps_emit. }
  intros _ w. rewrite count_step. simpl. lia.
Qed.

Lemma steps_batch_body ph tot pos b acc w :
  steps (batch_body G ph crit opt dev tot pos b acc w).2 ≤ steps w + 1.
Proof.
  revert w. unfold batch_body.
  apply (atmost_bind _ _ 0 1); [apply atmost_keeps, keeps_model_call |].
  intros o. apply (atmost_bind _ _ 0 1); [apply atmost_keeps, keeps_lift |].
  intros l. apply (atmost_bind _ _ 1 0).
  - destruct ph; [intros w; apply steps_update_block |].
    intros w. simpl. lia.
  - intros _. apply atmost_keeps. repeat keeps_step.
Qed.

Lemma steps_batches ph tot ds : ∀ pos acc w,
  steps (for_enumerate (batch_body G ph crit opt dev tot) pos ds acc w).2
  ≤ steps w + length ds.
Proof.
  induction ds as [|b ds IH]; intros pos acc w; [simpl; lia |].
  cbn [for_enumerate]. change (length (b :: ds)) with (1 + length ds).
  apply (atmost_bind (batch_body G ph crit opt dev tot pos b acc)
           (for_enumerate (batch_body G ph crit opt dev tot) (S pos) ds)
           1 (length ds)).
  - intros w0. apply steps_batch_body.
  - intros a w0. apply IH.
Qed.

Lemma steps_valid_phase t : keeps steps
  (phase_body G train_loader validation_loader crit opt dev valid_phase t).
Proof.
  apply quiet_valid_phase.
  - apply keeps_model_call.
  - intros e He. apply keeps_emit. by destruct e.
  - intros b w. rewrite count_set_mode. destruct b; simpl; lia.
Qed.

Lemma steps_train_phase t w :
  steps (phase_body G train_loader validation_loader crit opt dev train_phase t w).2
  ≤ steps w + length train_loader.
Proof.
  unfold phase_body. rewrite keeps_after by (intros; apply keeps_ret).
  unfold phase_metrics. unfold mbind at 1, M_bind at 1.
  change (set_mode true w) with (Ret tt, (set_mode true w).2).
  cbv iota beta.
  assert (steps (set_mode true w).2 = steps w) as <-
    by (rewrite count_set_mode; simpl; lia).
  rewrite keeps_after by (intros acc; destruct (length _); auto with keeps).
  apply steps_batches.
Qed.

Lemma steps_epoch_body t w :
  steps (epoch_body G train_loader validation_loader crit opt dev t w).2
  ≤ steps w + length train_loader.
Proof.
  unfold epoch_body, mbind, M_bind.
  pose proof (steps_train_phase t w) as H1.
  destruct (phase_body _ _ _ _ _ _ train_phase t w) as [[t1|e] w1]; simpl in *.
  - by rewrite steps_valid_phase.
  - exact H1.
Qed.

(** X7: a call of [train] takes at most [len(train_loader)] optimizer
    steps, whatever the namespace, the epoch budget and the way it ends. *)
Theorem train_steps_at_most_one_pass (epochs : Z) (w : world) :
  steps_taken
    (calls (train_in G train_loader validation_loader crit opt epochs dev w).2)
  ≤ steps_taken (calls w) + length train_loader.
Proof.
  change (steps (train_in G train_loader validation_loader crit opt epochs dev w).2
          ≤ steps w + length train_loader).
  unfold train_in. unfold mbind at 1, M_bind at 1.
  pose proof (keeps_resolve steps G "Report" w) as Hr.
  destruct (resolve G "Report" w) as [[[]|e] w1]; simpl in *; [| lia].
  rewrite keeps_after by (intros; apply keeps_ret).
  destruct (range_cases epochs) as [-> | [es ->]].
  - simpl. lia.
  - rewrite epoch_loop_first, <- Hr. apply steps_epoch_body.
Qed.

Lemma steps_batch_body_Ret tot pos b acc w acc' w' :
  batch_body G train_phase crit opt dev tot pos b acc w = (Ret acc', w') →
  steps w' = steps w + 1.
Proof.
  unfold batch_body. intros H.
  apply bind_Ret in H as (o & w1 & H1 & H).
  apply (keeps_run steps) in H1; [| apply keeps_model_call].
  apply bind_Ret in H as (l & w2 & H2 & H).
  apply (keeps_run steps) in H2; [| apply keeps_lift].
  apply bind_Ret in H as ([] & w3 & H3 & H).
  apply (keeps_run steps) in H; [| repeat keeps_step].
  apply bind_Ret in H3 as ([] & wa & Ha & H3).
  apply (keeps_run steps) in Ha; [| by apply keeps_zero_grad].
  apply bind_Ret in H3 as ([] & wb & Hb & H3).
  apply (keeps_run steps) in Hb; [| by apply keeps_backward].
  apply bind_Ret in H3 as ([] & wc & Hc & H3).
  apply (keeps_run steps) in Hc; [| by apply keeps_emit].
  pose proof (count_step is_step opt wc) as Hs. rewrite H3 in Hs.
  simpl in Hs. lia.
Qed.

Lemma steps_batches_Ret tot ds : ∀ pos acc w acc' w',
  for_enumerate (batch_body G train_phase crit opt dev tot) pos ds acc w
  = (Ret acc', w') →
  steps w' = steps w + length ds.
Proof.
  induction ds as [|b ds IH]; intros pos acc w acc' w' H; simpl in H.
  - inversion H; subst. simpl. lia.
  - apply bind_Ret in H as (acc1 & w1 & Hb & H).
    apply steps_batch_body_Ret in Hb. apply IH in H. simpl. lia.
Qed.

Lemma steps_train_phase_Ret t w t' w1 :
  phase_body G train_loader validation_loader crit opt dev train_phase t w
  = (Ret t', w1) →
  steps w1 = steps w + length train_loader.
Proof.
  unfold phase_body, phase_metrics. intros H.
  apply bind_Ret in H as (m & w2 & H & Hr). inversion Hr; subst; clear Hr.
  apply bind_Ret in H as ([] & w3 & Hm & H).
  pose proof (count_set_mode is_step true w) as Hs. rewrite Hm in Hs.
  apply bind_Ret in H as (acc & w4 & Hacc & H).
  apply steps_batches_Ret in Hacc.
  apply (keeps_run steps) in H; [| destruct (length _); auto with keeps].
  simpl in *. lia.
Qed.

Lemma training_valid_metrics w m w2 :
  phase_metrics G train_loader validation_loader crit opt dev valid_phase w
  = (Ret m, w2) →
  training w2 = false.
Proof.
  unfold phase_metrics. intros H.
  apply bind_Ret in H as ([] & w1 & Hm & H).
  apply (keeps_run training) in H.
  - rewrite H. by inversion Hm.
  - apply keeps_bind.
    + apply keeps_for_enumerate. intros.
      apply (quiet_valid_batch training), training_model_call.
    + intros acc. destruct (length _); auto with keeps.
Qed.

(** X8: a call of [train] that returns with an epoch budget of at least 1
    has taken exactly [len(train_loader)] optimizer steps, one per training
    batch of its single epoch, and hands the model back in evaluation
    mode. *)
Theorem train_returns_after_one_pass (epochs : Z) (w w' : world) :
  train_in G train_loader validation_loader crit opt epochs dev w = (Ret tt, w') →
  (1 ≤ epochs)%Z →
  steps_taken (calls w') = steps_taken (calls w) + length train_loader ∧
  training w' = false.
Proof.
  intros H Hn. destruct (range_pos epochs Hn) as [es Hes].
  unfold train_in in H. rewrite Hes in H.
  apply bind_Ret in H as ([] & w0 & Hr & H).
  assert (w0 = w) as ->.
  { unfold resolve in Hr. destruct (bound G "Report"); by inversion Hr. }
  apply bind_Ret in H as (t' & w1 & H & Hret). inversion Hret; subst; clear Hret.
  rewrite epoch_loop_first in H.
  apply epoch_body_Ret in H as (wa & m & wb & Ht & Hm & -> & Hl).
  apply steps_train_phase_Ret in Ht.
  pose proof (training_valid_metrics _ _ _ Hm) as Hmode.
  assert (steps wb = steps wa) as Hb.
  { apply (keeps_run steps) in Hm; [exact Hm |].
    apply quiet_valid_metrics.
    - apply keeps_model_call.
    - intros b w0. rewrite count_set_mode. destruct b; simpl; lia. }
  split.
  - change (steps w' = steps w + length train_loader).
    apply (keeps_run steps) in Hl; [lia |].
    apply quiet_log_pass; [apply keeps_model_call |].
    intros e He. apply keeps_emit. by destruct e.
  - apply (keeps_run training) in Hl; [congruence |].
    apply quiet_log_pass; [apply training_model_call |]. by intros e _ w0.
Qed.

End Steps.

Lemma train_returns_after_one_pass_witness :
  ∃ w' : @world (Scripted.torch 2),
    steps_taken (calls w')
    = steps_taken (calls (Scripted.start 2 ∅))
      + length [Scripted.batch 1 4; Scripted.batch 3 4] ∧
    training w' = false.
Proof.
  assert (∃ w',
    train_in (T := Scripted.torch 2) with_Report
      [Scripted.batch 1 4; Scripted.batch 3 4] [Scripted.batch 0.5 4]
      (Scripted.crit 2) ["fc.4.weight"] 5 tt (Scripted.start 2 ∅)
    = (Ret tt, w')) as (w' & Hrun)
    by (eexists; vm_compute; reflexivity).
  exists w'.
  apply (train_returns_after_one_pass (T := Scripted.torch 2) with_Report
           [Scripted.batch 1 4; Scripted.batch 3 4] [Scripted.batch 0.5 4]
           (Scripted.crit 2) ["fc.4.weight"] tt 5 _ _ Hrun).
  lia.
Defined.

(** ** The lines of the second validation pass *)
Section Lines.
Context `{T : Torch}.
Variables (G : gset string) (crit : criterion).

Lemma log_pass_loop_Ret ph m t ds : ∀ pos w w',
  for_enumerate (λ _ b _,
      outputs ← model_call b.1;
      _ ← lift (crit outputs b.2);
      resolve G "logger";;
      emit (EvInfo ph (epoch_loss m) (epoch_acc m) (best_loss t)))
    pos ds tt w = (Ret tt, w') →
  calls w' = calls w ++
    replicate (length ds) (EvInfo ph (epoch_loss m) (epoch_acc m) (best_loss t)).
Proof.
  induction ds as [|b ds IH]; intros pos w w' H; simpl in H.
  - inversion H; subst. simpl. by rewrite app_nil_r.
  - apply bind_Ret in H as ([] & w1 & Hb & H).
    apply IH in H. rewrite H. clear H IH.
    apply bind_Ret in Hb as (o & wa & (_ & Hc & _)%model_call_Ret & Hb).
    apply bind_Ret in Hb as (l & wb & Hl & Hb).
    assert (wb = wa) as -> by (unfold lift in Hl; by inversion Hl).
    unfold resolve in Hb. destruct (bound G "logger"); [| discriminate].
    inversion Hb; subst; clear Hb. simpl. rewrite Hc.
    by rewrite <- app_assoc.
Qed.

(** X9: an epoch that completes ends with exactly [len(validation_loader)]
    log lines, all the same: each shows the validation epoch loss and
    accuracy and the [best_loss] already updated by that epoch, not the
    per-batch loss that the pass recomputes. *)
Theorem epoch_logs_one_line_per_validation_batch
    (train_loader validation_loader : loader) (opt : optimizer) (dev : device)
    (t t' : tracker) (w w' : world) :
  epoch_body G train_loader validation_loader crit opt dev t w = (Ret t', w') →
  ∃ w1 m w2,
    phase_body G train_loader validation_loader crit opt dev train_phase t w
    = (Ret t, w1) ∧
    phase_metrics G train_loader validation_loader crit opt dev valid_phase w1
    = (Ret m, w2) ∧
    calls w' = calls w2 ++
      replicate (length validation_loader)
        (EvInfo valid_phase (epoch_loss m) (epoch_acc m) (best_loss t')).
Proof.
  intros (w1 & m & w2 & Ht & Hm & -> & Hl)%epoch_body_Ret.
  exists w1, m, w2. split; [exact Ht |]. split; [exact Hm |].
  unfold log_pass in Hl. apply bind_Ret in Hl as ([] & w3 & Hr & Hl).
  assert (w3 = w2) as ->.
  { unfold resolve in Hr. destruct (bound G "torch"); by inversion Hr. }
  by apply log_pass_loop_Ret in Hl.
Qed.

End Lines.

Lemma epoch_logs_one_line_per_validation_batch_witness :
  ∃ (t' : tracker) (m : metrics) (w2 w' : @world (Scripted.torch 2)),
    best_loss t' = 1.5%float ∧
    calls w' = calls w2 ++
      replicate (length [Scripted.batch 0.5 4; Scripted.batch 0.25 4])
        (EvInfo valid_phase (epoch_loss m) (epoch_acc m) (best_loss t')).
Proof.
  assert (∃ t' w',
    epoch_body (T := Scripted.torch 2) with_Report [Scripted.batch 1 4]
      [Scripted.batch 0.5 4; Scripted.batch 0.25 4] (Scripted.crit 2)
      ["fc.4.weight"] tt (Tracker 3 0) (Scripted.start 2 ∅) = (Ret t', w') ∧
    best_loss t' = 1.5%float) as (t' & w' & Hrun & Hbest)
    by (eexists _, _; split; [vm_compute; reflexivity | reflexivity]).
  destruct (epoch_logs_one_line_per_validation_batch (T := Scripted.torch 2)
              with_Report (Scripted.crit 2) [Scripted.batch 1 4]
              [Scripted.batch 0.5 4; Scripted.batch 0.25 4] ["fc.4.weight"] tt
              (Tracker 3 0) t' (Scripted.start 2 ∅) w' Hrun)
    as (w1 & m & w2 & Ht & Hm & Hcalls).
  exists t', m, w2, w'. split; [exact Hbest | exact Hcalls].
Defined.

(** ** A validation loss that is not a number *)

Lemma SFcompare_refl s : s ≠ S754_nan → SFcompare s s = Some Eq.
Proof.
  destruct s as [sg | sg | | sg m e]; intros Hs; simpl; try done.
  - by destruct sg.
  - destruct sg; rewrite Z.compare_refl, Pos.compare_cont_refl; reflexivity.
Qed.

Lemma is_nan_Prim2SF x : PrimFloat.is_nan x = true → Prim2SF x = S754_nan.
Proof.
  unfold PrimFloat.is_nan. rewrite FloatAxioms.eqb_spec. intros H.
  destruct (Prim2SF x) as [sg | sg | | sg m e]; try reflexivity;
    exfalso; unfold SFeqb in H; rewrite SFcompare_refl in H by discriminate;
    discriminate.
Qed.

Lemma ltb_nan_l x y : PrimFloat.is_nan x = true → PrimFloat.ltb x y = false.
Proof.
  intros Hx. rewrite FloatAxioms.ltb_spec, (is_nan_Prim2SF x Hx). reflexivity.
Qed.

Lemma ltb_not_nan_l x y : PrimFloat.ltb x y = true → PrimFloat.is_nan x = false.
Proof.
  intros H. destruct (PrimFloat.is_nan x) eqn:E; [| reflexivity].
  by rewrite (ltb_nan_l x y E) in H.
Qed.

(** X10: a validation epoch loss that is NaN never becomes [best_loss]; it
    is counted as a stall.  Hence [best_loss], which starts at 1e6, is not
    NaN after any stretch of the loop. *)
Theorem nan_loss_is_a_stall `{T : Torch} (G : gset string)
    (train_loader validation_loader : loader) (crit : criterion)
    (opt : optimizer) (dev : device) :
  (∀ el t, PrimFloat.is_nan el = true →
     update_tracker el t = Tracker (best_loss t) (loss_counter t + 1)) ∧
  (∀ es t w t' w',
     epoch_loop G train_loader validation_loader crit opt dev es t w
     = (Ret t', w') →
     PrimFloat.is_nan (best_loss t) = false →
     PrimFloat.is_nan (best_loss t') = false) ∧
  PrimFloat.is_nan 1e6 = false.
Proof.
  split; [| split; [| reflexivity]].
  - intros el t Hnan. apply update_tracker_stalled. by apply ltb_nan_l.
  - intros es. induction es as [|epoch es IH]; intros t w t' w' H Ht; simpl in H.
    + by inversion H; subst.
    + apply bind_Ret in H as (t1 & w1 & Hb & H).
      assert (PrimFloat.is_nan (best_loss t1) = false) as Ht1.
      { apply epoch_body_Ret in Hb as (wa & m & wb & _ & _ & -> & _).
        unfold update_tracker.
        destruct (PrimFloat.ltb (epoch_loss m) (best_loss t)) eqn:E; simpl.
        - by apply ltb_not_nan_l in E.
        - exact Ht. }
      destruct (loss_counter t1 =? 1)%Z; [by inversion H; subst |].
      destruct (epoch =? 0); [by inversion H; subst |].
      by apply (IH t1 w1 t' w').
Qed.

Lemma nan_loss_is_a_stall_witness :
  update_tracker PrimFloat.nan (Tracker 1e6 0) = Tracker 1e6 (0 + 1).
Proof.
  apply (proj1 (nan_loss_is_a_stall (T := Scripted.torch 0) ∅ [] []
                  (Scripted.crit 0) [] tt) PrimFloat.nan (Tracker 1e6 0)).
  vm_compute. reflexivity.
Defined.

(** ** The model that [net] returns *)
Section NetShape.
Context `{T : Torch}.
Variables (resnet50 : pretrained) (init : string → tensor).

Lemma net_lookup_rest k :
  k ∉ main_optimizer (net resnet50 init) →
  m_params (net resnet50 init) !! k
  = if under_fc k then None
    else set_requires_grad false <$> pre_params resnet50 !! k.
Proof.
  intros Hk. unfold net; cbn [m_params].
  rewrite (lookup_foldr_insert_other (λ k', MkParameter (init k') true None))
    by exact Hk.
  rewrite map_lookup_filter, lookup_fmap.
  destruct (pre_params resnet50 !! k) as [p|]; simpl; [| by destruct (under_fc k)].
  destruct (under_fc k) eqn:E.
  - rewrite option_guard_False; [done | simpl; congruence].
  - by rewrite option_guard_True.
Qed.

(** X11: in the model [net] returns, the parameters that require grad are
    exactly those handed to the optimizer on line 160, the six of the new
    head, each at its initial value with no gradient; every other key holds
    the pretrained Parameter, frozen; and the weight and bias of the
    pretrained network's own [fc] are gone. *)
Theorem net_trains_exactly_the_head (k : string) :
  let m := net resnet50 init in
  (k ∈ main_optimizer m →
   m_params m !! k = Some (MkParameter (init k) true None)) ∧
  (k ∉ main_optimizer m →
   m_params m !! k = if under_fc k then None
                     else set_requires_grad false <$> pre_params resnet50 !! k) ∧
  (∀ p, m_params m !! k = Some p →
        (requires_grad p = true ↔ k ∈ main_optimizer m)) ∧
  m_params m !! "fc.weight" = None ∧ m_params m !! "fc.bias" = None.
Proof.
  cbv zeta. split; [apply net_lookup_head |]. split; [apply net_lookup_rest |].
  split.
  - intros p Hp.
    destruct (decide (k ∈ main_optimizer (net resnet50 init))) as [Hk | Hk].
    + rewrite (net_lookup_head resnet50 init k Hk) in Hp. inversion Hp; subst. done.
    + rewrite (net_lookup_rest k Hk) in Hp.
      destruct (under_fc k); [discriminate |].
      destruct (pre_params resnet50 !! k) as [q|]; [| discriminate].
      inversion Hp; subst. simpl. split; [discriminate | done].
  - split; rewrite net_lookup_rest; try reflexivity; rewrite net_head_keys;
      intros Hin;
      repeat (apply elem_of_cons in Hin as [Heq | Hin]; [discriminate Heq |]);
      by apply elem_of_nil in Hin.
Qed.

(** X12: the forward pass of the head that [net] builds succeeds on no
    input, whatever its width and whatever [in_features] the pretrained
    network reports: the first layer rejects a width other than
    [in_features], and otherwise the final layer rejects the 32-wide
    activation. *)
Theorem head_forward_never_succeeds (width : Z) :
  sequential_forward (fc (net resnet50 init)) width
  = Raise (RuntimeError "mat1 and mat2 shapes cannot be multiplied").
Proof.
  unfold net; cbn [fc]. simpl.
  destruct (width =? fc_in_features resnet50)%Z; reflexivity.
Qed.

End NetShape.

Lemma net_trains_exactly_the_head_witness :
  m_params (net (Scripted.resnet 2) (λ _, 7%Z)) !! "fc.4.bias"
  = Some (MkParameter (T := Scripted.torch 2) 7%Z true None) ∧
  m_params (net (Scripted.resnet 2) (λ _, 7%Z)) !! "conv1.weight"
  = (if under_fc "conv1.weight" then None
     else set_requires_grad false <$>
            pre_params (Scripted.resnet 2) !! "conv1.weight").
Proof.
  split.
  - apply (proj1 (net_trains_exactly_the_head (T := Scripted.torch 2)
                    (Scripted.resnet 2) (λ _, 7%Z) "fc.4.bias")).
    rewrite net_head_keys. do 5 right. left.
  - apply (proj1 (proj2 (net_trains_exactly_the_head (T := Scripted.torch 2)
                           (Scripted.resnet 2) (λ _, 7%Z) "conv1.weight"))).
    apply backbone_outside_optimizer. reflexivity.
Defined.

(** ** The folders the loaders read *)

Lemma string_app_cancel (a b c : string) : a +:+ b = a +:+ c → b = c.
Proof.
  induction a as [|ch a IH]; simpl; intros H; [exact H |].
  injection H as H. by apply IH.
Qed.

Lemma path_join_literal_inj data (b c : string) :
  String.prefix "/" b = false → String.prefix "/" c = false →
  Data.path_join data b = Data.path_join data c → b = c.
Proof.
  intros Hb Hc. unfold Data.path_join. rewrite Hb, Hc.
  destruct (String.eqb data "" || Data.ends_with_sep data)%bool; intros H.
  - by apply string_app_cancel in H.
  - apply string_app_cancel in H. by apply (string_app_cancel "/") in H.
Qed.

(** X13: whatever the data root, none of the three loaders reads the
    [train] folder; the training and the test loader read the same folder,
    the validation loader a different one; and all three, the test and
    validation loaders included, shuffle and use the given batch size. *)
Theorem train_folder_is_never_read (data : string) (batch_size : Z) :
  let '(train_data_loader, test_data_loader, validation_data_loader) :=
    Data.create_data_loaders data batch_size in
  Forall (λ l, Data.root (Data.dataset l) ≠ Data.path_join data "train" ∧
               Data.shuffle l = true ∧ Data.batch_size l = batch_size)
         [train_data_loader; test_data_loader; validation_data_loader] ∧
  Data.root (Data.dataset train_data_loader)
  = Data.root (Data.dataset test_data_loader) ∧
  Data.root (Data.dataset validation_data_loader)
  ≠ Data.root (Data.dataset test_data_loader).
Proof.
  simpl. split; [| split; [reflexivity |]].
  - repeat constructor; simpl;
      intros H; apply path_join_literal_inj in H; done.
  - intros H. apply path_join_literal_inj in H; done.
Qed.

(** ** The environment the entry block needs *)

(** X14: the entry block gets as far as calling [main] exactly when both
    [dogImages] and [TrainedModels/model.pth] are environment variables;
    without [dogImages] it raises [KeyError('dogImages')] on line 177, also
    when [--data] and [--output_dir] are both given. *)
Theorem entry_needs_both_variables (environ : gmap string string)
    (argv : list Entry.given) :
  ((∃ ns, Entry.entry environ argv = Ret ns) ↔
   is_Some (environ !! "dogImages") ∧
   is_Some (environ !! "TrainedModels/model.pth")) ∧
  (environ !! "dogImages" = None →
   Entry.entry environ argv = Raise (KeyError "dogImages")).
Proof.
  unfold Entry.entry, Entry.build_parser, Entry.environ_get. split.
  - destruct (environ !! "dogImages") as [d|];
      destruct (environ !! "TrainedModels/model.pth") as [o|]; split;
      try (intros [ns H]; discriminate H);
      try (intros [[? H1] [? H2]]; discriminate);
      eauto.
  - intros ->. reflexivity.
Qed.

Lemma entry_needs_both_variables_witness :
  Entry.entry {[ "TrainedModels/model.pth" := "/env/model.pth" ]}
    [Entry.GData "/data"; Entry.GOutputDir "/out/model.pth"]
  = Raise (KeyError "dogImages").
Proof.
  apply (proj2 (entry_needs_both_variables
                  {[ "TrainedModels/model.pth" := "/env/model.pth" ]}
                  [Entry.GData "/data"; Entry.GOutputDir "/out/model.pth"])).
  vm_compute. reflexivity.
Defined.

(** ** [main] *)
Section MainRuns.
Context `{T : Torch}.
Variables (lib : libraries) (args : Entry.namespace).

Lemma St_bind_inl {S A B} (m : St S A) (k : A → St S B) s b s' :
  (m ≫= k) s = (inl b, s') ↔ ∃ a s1, m s = (inl a, s1) ∧ k a s1 = (inl b, s').
Proof.
  unfold mbind, St_bind. split.
  - destruct (m s) as [[a|c] s1]; [eauto | discriminate].
  - intros (a & s1 & -> & Hk). exact Hk.
Qed.

Lemma need_inl {S} G name (s s' : S) :
  need G name s = (inl tt, s') → bound G name = true ∧ s' = s.
Proof.
  unfold need. destruct (bound G name); [| discriminate].
  by inversion 1.
Qed.

Lemma from_lib_inl {S A} (o : outcome A) (s s' : S) a :
  from_lib o s = (inl a, s') → o = Ret a ∧ s' = s.
Proof. unfold from_lib. destruct o; [| discriminate]. by inversion 1. Qed.

(** What the lines before the call of [train] print, however they end. *)
Lemma main_setup_lines G out :
  ∃ ls, (main_setup G lib args out).2 = out ++ ls ∧
        ls `prefix_of`
          [ TrainingWith (Entry.learning_rate args) (Entry.batch_size args)
                         (Entry.epochs args);
            DataPaths (Entry.data args);
            StartingTraining ].
Proof.
  unfold main_setup, need, from_lib, say, fail, mbind, St_bind, mret, St_ret.
  repeat case_match; simplify_eq/=;
    (eexists; split;
     [ rewrite <- ?app_assoc; simpl; try reflexivity;
       symmetry; apply app_nil_r
     | eexists; reflexivity ]).
Qed.

Lemma main_setup_inl G out loaders m out1 :
  main_setup G lib args out = (inl (loaders, m), out1) →
  out1 = out ++
    [ TrainingWith (Entry.learning_rate args) (Entry.batch_size args)
                   (Entry.epochs args);
      DataPaths (Entry.data args);
      StartingTraining ] ∧
  create_data_loaders_run G lib (Entry.data args) (Entry.batch_size args)
  = Ret loaders ∧
  ∃ r50, resnet50 lib = Ret r50 ∧ m = net r50 (initial lib).
Proof.
  unfold main_setup. intros H.
  apply St_bind_inl in H as ([] & s1 & [_ ->]%need_inl & H).
  apply St_bind_inl in H as ([] & s2 & Hs1 & H). inversion Hs1; subst; clear Hs1.
  apply St_bind_inl in H as ([] & s3 & [_ ->]%need_inl & H).
  apply St_bind_inl in H as ([] & s4 & Hs2 & H). inversion Hs2; subst; clear Hs2.
  apply St_bind_inl in H as ([] & s5 & [_ ->]%need_inl & H).
  apply St_bind_inl in H as (ls & s6 & [Hls ->]%from_lib_inl & H).
  apply St_bind_inl in H as ([] & s7 & [_ ->]%need_inl & H).
  apply St_bind_inl in H as (m' & s8 & [Hm ->]%from_lib_inl & H).
  apply St_bind_inl in H as ([] & s9 & [_ ->]%need_inl & H).
  apply St_bind_inl in H as ([] & s10 & [_ ->]%need_inl & H).
  apply St_bind_inl in H as ([] & s11 & [_ ->]%from_lib_inl & H).
  apply St_bind_inl in H as ([] & s12 & [_ ->]%need_inl & H).
  apply St_bind_inl in H as ([] & s13 & Hs3 & H). inversion Hs3; subst; clear Hs3.
  inversion H; subst; clear H.
  split; [by rewrite <- !app_assoc |]. split; [exact Hls |].
  unfold net_run, check in Hm. unfold mbind, outcome_bind in Hm.
  destruct (bound G "models"); [| discriminate].
  destruct (resnet50 lib) as [r50|]; [| discriminate].
  destruct (bound G "nn"); [| discriminate].
  inversion Hm. by exists r50.
Qed.

(** In the file's namespace line 163 stops at the name [device]. *)
Lemma main_tail_stops loaders m s :
  main_tail module_globals lib args loaders m s
  = (inr (Crash (NameError "device")), s).
Proof.
  destruct loaders as [[tl tel] vl]. unfold main_tail, call_train, need.
  replace (bound module_globals "train") with true by (vm_compute; reflexivity).
  replace (bound module_globals "device") with false by (vm_compute; reflexivity).
  reflexivity.
Qed.

(** X15: in the namespace the file builds, [main] never completes: it
    never starts [train] or [test], never writes the model and never prints
    [saved], whatever its arguments and whatever the libraries do.  All it
    can print is a prefix of its first three log lines. *)
Theorem main_never_completes (out : list line) :
  let r := main lib args out in
  (∃ c, ended r = Some c) ∧
  (∀ w, built r = Some w → calls w = []) ∧
  (∃ ls, printed r = out ++ ls ∧
         Forall (λ l, is_saved l = false ∧ l ≠ Printed "saved") ls ∧
         ls `prefix_of`
           [ TrainingWith (Entry.learning_rate args) (Entry.batch_size args)
                          (Entry.epochs args);
             DataPaths (Entry.data args);
             StartingTraining ]).
Proof.
  cbv zeta. unfold main, main_in.
  destruct (main_setup_lines module_globals out) as (ls & Hls & Hpre).
  assert (Forall (λ l, is_saved l = false ∧ l ≠ Printed "saved") ls) as Hno.
  { destruct Hpre as [k Hk].
    assert (Forall (λ l, is_saved l = false ∧ l ≠ Printed "saved") (ls ++ k))
      as Hall by (rewrite <- Hk; repeat constructor; discriminate).
    by apply Forall_app in Hall as [Hall _]. }
  destruct (main_setup module_globals lib args out) as [[[loaders m]|c] out1];
    simpl in Hls; subst out1.
  - rewrite main_tail_stops. simpl. split; [eauto |]. split.
    + intros w Hw. by inversion Hw.
    + by exists ls.
  - simpl. split; [eauto |]. split; [discriminate |]. by exists ls.
Qed.

(** X16: when the folders open, the loaders build, the pretrained network
    loads and the optimizer accepts its arguments, [main] in the file's
    namespace raises [NameError] for [device] on line 163, after exactly
    three log lines and with the model built and untrained. *)
Theorem main_stops_at_device (out : list line)
    (loaders : loader * loader * loader) (r50 : pretrained) :
  create_data_loaders_run module_globals lib (Entry.data args)
                          (Entry.batch_size args) = Ret loaders →
  resnet50 lib = Ret r50 →
  adam lib (main_optimizer (net r50 (initial lib))) (Entry.learning_rate args)
  = Ret tt →
  main lib args out
  = Run (Some (Crash (NameError "device")))
        (out ++ [ TrainingWith (Entry.learning_rate args)
                               (Entry.batch_size args) (Entry.epochs args);
                  DataPaths (Entry.data args);
                  StartingTraining ])
        (Some (main_world (net r50 (initial lib)))).
Proof.
  intros Hl Hr Ha. unfold main, main_in.
  assert (main_setup module_globals lib args out
          = (inl (loaders, net r50 (initial lib)),
             out ++ [ TrainingWith (Entry.learning_rate args)
                                   (Entry.batch_size args) (Entry.epochs args);
                      DataPaths (Entry.data args);
                      StartingTraining ])) as ->.
  { unfold main_setup, net_run, need, check.
    replace (bound module_globals "logger") with true by (vm_compute; reflexivity).
    replace (bound module_globals "create_data_loaders") with true
      by (vm_compute; reflexivity).
    replace (bound module_globals "net") with true by (vm_compute; reflexivity).
    replace (bound module_globals "models") with true by (vm_compute; reflexivity).
    replace (bound module_globals "nn") with true by (vm_compute; reflexivity).
    replace (bound module_globals "optim") with true by (vm_compute; reflexivity).
    rewrite Hl, Hr. unfold from_lib, say.
    unfold mbind, St_bind, outcome_bind, mret, St_ret, outcome_ret.
    cbv beta iota. rewrite Ha. cbv beta iota.
    by rewrite <- !app_assoc. }
  by rewrite main_tail_stops.
Qed.

End MainRuns.

Lemma main_stops_at_device_witness :
  main (T := Scripted.torch 2) (Rig.libs 2) Rig.args []
  = Run (Some (Crash (NameError "device")))
        ([] ++ [ TrainingWith (Entry.learning_rate Rig.args)
                              (Entry.batch_size Rig.args)
                              (Entry.epochs Rig.args);
                 DataPaths (Entry.data Rig.args);
                 StartingTraining ])
        (Some (main_world (net (Scripted.resnet 2) (initial (Rig.libs 2))))).
Proof.
  apply (main_stops_at_device (T := Scripted.torch 2) (Rig.libs 2) Rig.args []
           ([Scripted.batch 0.5 4], [Scripted.batch 0.5 4], [Scripted.batch 0.5 4])
           (Scripted.resnet 2)).
  - vm_compute. reflexivity.
  - reflexivity.
  - reflexivity.
Defined.

(** ** A run of [main] in any namespace *)
Section MainStops.
Context `{T : Torch}.
Variables (G : gset string) (lib : libraries) (args : Entry.namespace).

Lemma bind_Raise {A B} (m : M A) (k : A → M B) w e w' :
  m w = (Raise e, w') → (m ≫= k) w = (Raise e, w').
Proof. intros H. unfold mbind, M_bind. by rewrite H. Qed.

Lemma count_set_mode_update b w :
  count is_update (set_mode b w).2 = count is_update w.
Proof. rewrite count_set_mode. destruct b; simpl; lia. Qed.

Section Raising.
Hypothesis model_raises :
  ∀ tr vals bf x, ∃ e bf', call_model tr vals bf x = (Raise e, bf').

Lemma model_call_raises x w :
  ∃ e w', model_call x w = (Raise e, w') ∧
          learnt w' = learnt w ∧ calls w' = calls w.
Proof.
  unfold model_call.
  destruct (model_raises (training w) (data <$> params w) (bufs w) x)
    as (e & bf' & ->).
  by eexists _, _.
Qed.

(** A loop over batches whose body starts with the forward pass ends at
    the first batch, or at once when there is none. *)
Lemma first_batch_raises {B} (body : nat → inputs * labels → B → M B)
    (arg : inputs * labels → inputs) ds s w :
  (∀ pos b s, ∃ k, body pos b s = model_call (arg b) ≫= k) →
  ds ≠ [] →
  ∃ e w', for_enumerate body 0 ds s w = (Raise e, w') ∧
          learnt w' = learnt w ∧ calls w' = calls w.
Proof.
  intros Hbody Hds. destruct ds as [|b ds]; [done |]. simpl.
  destruct (Hbody 0 b s) as [k ->].
  destruct (model_call_raises (arg b) w) as (e & w' & Hm & Hl & Hc).
  exists e, w'. split; [| done].
  apply bind_Raise. by apply bind_Raise.
Qed.

Lemma phase_metrics_raises tl vl crit opt dev ph w :
  ∃ e w',
    phase_metrics G tl vl crit opt dev ph w = (Raise e, w') ∧
    learnt w' = learnt w ∧ count is_update w' = count is_update w.
Proof.
  unfold phase_metrics.
  set (b := match ph with train_phase => true | valid_phase => false end).
  set (ds := image_dataset tl vl ph).
  pose proof (count_set_mode_update b w) as Hc.
  assert (learnt (set_mode b w).2 = learnt w) as Hl by reflexivity.
  assert (set_mode b w = (Ret tt, (set_mode b w).2)) as Hs by reflexivity.
  revert Hc Hl Hs. generalize (set_mode b w).2. intros w1 Hc Hl Hs.
  unfold mbind at 1, M_bind at 1. rewrite Hs.
  destruct ds as [|d ds'] eqn:E.
  - exists ZeroDivisionError, w1. split; [reflexivity | done].
  - destruct (first_batch_raises
                (batch_body G ph crit opt dev (length (d :: ds')))
                (λ b, inputs_to dev b.1) (d :: ds') (0%float, 0%Z) w1)
      as (e & w' & Hrun & Hl' & Hc'); [| done |].
    + intros pos b0 s. eexists. reflexivity.
    + exists e, w'. split; [by apply bind_Raise |].
      split; [congruence |]. unfold count in *. congruence.
Qed.

Lemma train_in_stops tl vl crit opt epochs dev w :
  (bound G "Report" = true ∧ (epochs ≤ 0)%Z ∧
   train_in G tl vl crit opt epochs dev w = (Ret tt, w)) ∨
  ∃ e w',
    train_in G tl vl crit opt epochs dev w = (Raise e, w') ∧
    learnt w' = learnt w ∧ count is_update w' = count is_update w.
Proof.
  unfold train_in, resolve. destruct (bound G "Report").
  - destruct (Z_le_gt_dec epochs 0) as [Hn | Hn].
    + left. rewrite range_nonpositive by exact Hn. done.
    + right. destruct (range_pos epochs) as [es ->]; [lia |].
      destruct (phase_metrics_raises tl vl crit opt dev train_phase w)
        as (e & w' & Hrun & Hl & Hc).
      exists e, w'. split; [| done].
      unfold mbind at 1, M_bind at 1. unfold mret at 1, M_ret at 1.
      apply bind_Raise. rewrite epoch_loop_first.
      unfold epoch_body, phase_body. by do 2 apply bind_Raise.
  - right. by eexists _, _.
Qed.

Lemma test_in_stops ds crit dev w :
  ∃ e w', test_in G ds crit dev w = (Raise e, w').
Proof.
  unfold test_in. unfold mbind at 1, M_bind at 1.
  assert (set_mode false w = (Ret tt, (set_mode false w).2)) as Hs by reflexivity.
  revert Hs. generalize (set_mode false w).2. intros w1 ->.
  destruct ds as [|d ds'].
  - by eexists _, _.
  - destruct (first_batch_raises (test_body G crit dev)
                (λ b, inputs_to dev b.1) (d :: ds') (0%float, 0%Z) w1)
      as (e & w' & Hrun & _); [| done |].
    + intros pos b0 s. eexists. reflexivity.
    + exists e, w'. by apply bind_Raise.
Qed.

(** Lines 163-170 never get past [test]. *)
Lemma main_tail_stops_at_head loaders m s :
  ∃ c s',
    main_tail G lib args loaders m s = (inr c, s') ∧
    learnt s'.1 = learnt s.1 ∧
    count is_update s'.1 = count is_update s.1 ∧
    (s'.2 = s.2 ∨
     (s'.2 = s.2 ++ [StartingTesting] ∧
      bound G "Report" = true ∧ bound G "device" = true ∧
      ∃ n, Entry.epochs args = Some n ∧ (n ≤ 0)%Z)).
Proof.
  destruct loaders as [[tl tel] vl]. destruct s as [w out].
  unfold main_tail, call_train, need.
  destruct (bound G "train");
    [| eexists _, _; split; [reflexivity |]; auto].
  destruct (bound G "device") eqn:Hd;
    [| eexists _, _; split; [reflexivity |]; auto].
  destruct (Entry.epochs args) as [n|] eqn:En.
  - destruct (train_in_stops tl vl (cross_entropy lib) (main_optimizer m) n
                (the_device lib) w)
      as [(HR & Hn & Hrun) | (e & w' & Hrun & Hl & Hc)].
    + destruct (bound G "logger");
        [| eexists _, _; split;
           [unfold mbind, St_bind, mret, St_ret, in_world, fail; simpl;
            rewrite Hrun; reflexivity |]; auto].
      destruct (bound G "test");
        [| eexists _, _; split;
           [unfold mbind, St_bind, mret, St_ret, in_world, fail, tell; simpl;
            rewrite Hrun; reflexivity |];
           simpl; split; [done |]; split; [done |]; right;
           split; [done |]; split; [done |]; split; [done |]; by exists n].
      destruct (test_in_stops tel (cross_entropy lib) (the_device lib) w)
        as (e & w' & Htest).
      pose proof (quiet_test_in learnt G (cross_entropy lib) (the_device lib)
                    learnt_model_call) as Hq.
      assert (keeps learnt (test_in G tel (cross_entropy lib) (the_device lib)))
        as Hk by (apply Hq; by intros ? ?).
      assert (keeps (count is_update)
                (test_in G tel (cross_entropy lib) (the_device lib))) as Hk'.
      { apply (quiet_test_in (count is_update)).
        - apply keeps_model_call.
        - intros e0 He. by apply keeps_emit.
        - intros b w0. apply count_set_mode_update. }
      exists (Crash e), (w', out ++ [StartingTesting]). split.
      * unfold mbind, St_bind, mret, St_ret, in_world, fail, tell. simpl.
        rewrite Hrun. simpl. rewrite Htest. reflexivity.
      * simpl. split; [exact (keeps_run learnt _ _ _ _ Hk Htest) |].
        split; [exact (keeps_run (count is_update) _ _ _ _ Hk' Htest) |].
        right. split; [done |]. split; [done |]. split; [done |]. by exists n.
    + exists (Crash e), (w', out). split.
      * unfold mbind, St_bind, mret, St_ret, in_world, fail. simpl.
        rewrite Hrun. reflexivity.
      * simpl. auto.
  - unfold resolve. destruct (bound G "Report").
    + eexists _, _. split; [reflexivity |]. auto.
    + eexists _, _. split; [reflexivity |]. auto.
Qed.

End Raising.

(** X17: in any namespace, also one where [device] and [Report] are bound,
    and whatever the arguments and the libraries, [main] never completes
    when the model call runs the head that [net] builds.  The run ends with
    an exception; the model [main] built is never updated (no [zero_grad],
    [backward] or [step]; Parameter objects and optimizer statistics as
    built); what is printed is a prefix of the three log lines of the setup
    followed by [Starting Model Testing], so the model file is never written
    and [saved] never printed; and [Starting Model Testing] is printed only
    when [Report] and [device] are bound and [--epochs] is 0 or less. *)
Theorem main_stops_at_the_head (out : list line) :
  (∀ r50, resnet50 lib = Ret r50 → runs_the_head (net r50 (initial lib))) →
  let r := main_in G lib args out in
  (∃ c, ended r = Some c) ∧
  (∀ w, built r = Some w →
        ∃ r50, resnet50 lib = Ret r50 ∧
               learnt w = learnt (main_world (net r50 (initial lib))) ∧
               count is_update w = 0) ∧
  (∃ ls, printed r = out ++ ls ∧
         Forall (λ l, is_saved l = false ∧ l ≠ Printed "saved") ls ∧
         ls `prefix_of`
           [ TrainingWith (Entry.learning_rate args) (Entry.batch_size args)
                          (Entry.epochs args);
             DataPaths (Entry.data args);
             StartingTraining;
             StartingTesting ]) ∧
  (StartingTesting ∈ printed r → StartingTesting ∉ out →
   bound G "Report" = true ∧ bound G "device" = true ∧
   ∃ n, Entry.epochs args = Some n ∧ (n ≤ 0)%Z).
Proof.
  intros Hhead. cbv zeta. unfold main_in.
  destruct (main_setup G lib args out) as [[[loaders m]|c] out1] eqn:E.
  - apply main_setup_inl in E as (-> & _ & r50 & Hr & ->).
    assert (∀ tr vals bf x, ∃ e bf', call_model tr vals bf x = (Raise e, bf'))
      as Hraise.
    { apply (Hhead r50 Hr). intros width. eexists.
      unfold net; cbn [fc]. simpl.
      destruct (width =? fc_in_features r50)%Z; reflexivity. }
    destruct (main_tail_stops_at_head Hraise loaders (net r50 (initial lib))
                (main_world (net r50 (initial lib)),
                 out ++ [ TrainingWith (Entry.learning_rate args)
                                       (Entry.batch_size args) (Entry.epochs args);
                          DataPaths (Entry.data args);
                          StartingTraining ]))
      as (c & [w out2] & -> & Hl & Hc & Hout).
    cbn [ended built printed]. simpl in Hl, Hc, Hout.
    split; [eauto |]. split.
    { intros w0 Hw0. inversion Hw0; subst w0. exists r50. done. }
    destruct Hout as [-> | (-> & HR & Hd & Hn)].
    + split.
      * eexists. split; [reflexivity |]. split.
        -- repeat constructor; discriminate.
        -- by exists [StartingTesting].
      * intros Hin Hout. exfalso. apply elem_of_app in Hin as [Hin | Hin]; [done |].
        repeat (apply elem_of_cons in Hin as [Hin | Hin]; [discriminate |]).
        by apply elem_of_nil in Hin.
    + split; [| done].
      eexists. split; [by rewrite <- app_assoc |]. split.
      * repeat constructor; discriminate.
      * done.
  - cbn [ended built printed].
    destruct (main_setup_lines lib args G out) as (ls & Hls & [k Hk]).
    rewrite E in Hls. simpl in Hls. subst out1.
    assert (ls ++ k ++ [StartingTesting]
            = [ TrainingWith (Entry.learning_rate args) (Entry.batch_size args)
                             (Entry.epochs args);
                DataPaths (Entry.data args);
                StartingTraining;
                StartingTesting ]) as Hfull
      by (rewrite app_assoc, <- Hk; reflexivity).
    split; [eauto |]. split; [discriminate |]. split.
    + exists ls. split; [reflexivity |]. split.
      * assert (Forall (λ l, is_saved l = false ∧ l ≠ Printed "saved") (ls ++ k))
          as Hall by (rewrite <- Hk; repeat constructor; discriminate).
        by apply Forall_app in Hall as [Hall _].
      * exists (k ++ [StartingTesting]). by rewrite Hfull.
    + intros Hin Hout. exfalso. apply elem_of_app in Hin as [Hin | Hin]; [done |].
      assert (StartingTesting ∈ ls ++ k) as Hin' by (apply elem_of_app; by left).
      rewrite <- Hk in Hin'.
      repeat (apply elem_of_cons in Hin' as [Hin' | Hin']; [discriminate |]).
      by apply elem_of_nil in Hin'.
Qed.

End MainStops.

Lemma main_stops_at_the_head_witness :
  ended (main_in (T := Shaped.torch) with_Report_and_device Shaped.libs
                 Rig.args [])
  = Some (Crash (RuntimeError "mat1 and mat2 shapes cannot be multiplied")) ∧
  let r := main_in (T := Shaped.torch) with_Report_and_device Shaped.libs
                   Rig.args [] in
  (∃ c, ended r = Some c) ∧
  (∀ w, built r = Some w →
        ∃ r50, resnet50 Shaped.libs = Ret r50 ∧
               learnt w = learnt (main_world (net r50 (initial Shaped.libs))) ∧
               count is_update w = 0) ∧
  (∃ ls, printed r = [] ++ ls ∧
         Forall (λ l, is_saved l = false ∧ l ≠ Printed "saved") ls ∧
         ls `prefix_of`
           [ TrainingWith (Entry.learning_rate Rig.args)
                          (Entry.batch_size Rig.args) (Entry.epochs Rig.args);
             DataPaths (Entry.data Rig.args);
             StartingTraining;
             StartingTesting ]) ∧
  (StartingTesting (T := Shaped.torch) ∈ printed r →
   StartingTesting (T := Shaped.torch) ∉ ([] : list (@line Shaped.torch)) →
   bound with_Report_and_device "Report" = true ∧
   bound with_Report_and_device "device" = true ∧
   ∃ n, Entry.epochs Rig.args = Some n ∧ (n ≤ 0)%Z).
Proof.
  split; [vm_compute; reflexivity |].
  apply (main_stops_at_the_head (T := Shaped.torch) with_Report_and_device
           Shaped.libs Rig.args []).
  intros r50 _ _ tr vals bf x. eexists _, _. reflexivity.
Defined.

(** ** The whole script *)

(** X18: run as a script in its own namespace, the file never completes:
    it ends with the [KeyError] of the entry block or with the failure of
    [main], it never starts [train] or [test], never writes the model and
    never prints [saved], whatever the environment, the command line and
    the libraries. *)
Theorem script_never_completes `{T : Torch} (environ : gmap string string)
    (argv : list Entry.given) (lib : libraries) :
  let r := script environ argv lib in
  (∃ c, ended r = Some c) ∧
  Forall (λ l, is_saved l = false ∧ l ≠ Printed "saved") (printed r) ∧
  (∀ w, built r = Some w → calls w = []) ∧
  (is_Some (environ !! "dogImages") →
   is_Some (environ !! "TrainedModels/model.pth") →
   ∃ args, Entry.entry environ argv = Ret args ∧ r = main lib args []).
Proof.
  cbv zeta. unfold script.
  destruct (Entry.entry environ argv) as [args | e] eqn:E.
  - assert ((∃ c, ended (main lib args []) = Some c) ∧
            Forall (λ l, is_saved l = false ∧ l ≠ Printed "saved")
                   (printed (main lib args [])) ∧
            (∀ w, built (main lib args []) = Some w → calls w = []))
      as (H1 & H2 & H3).
    { unfold main, main_in.
      destruct (main_setup_lines lib args module_globals [])
        as (ls & Hls & [k Hk]).
      assert (Forall (λ l, is_saved l = false ∧ l ≠ Printed "saved") ls) as Hno.
      { assert (Forall (λ l, is_saved l = false ∧ l ≠ Printed "saved") (ls ++ k))
          as Hall by (rewrite <- Hk; repeat constructor; discriminate).
        by apply Forall_app in Hall as [Hall _]. }
      simpl in Hls.
      destruct (main_setup module_globals lib args []) as [[[loaders m]|c] out1];
        simpl in Hls; subst out1.
      + rewrite main_tail_stops. simpl. split; [eauto |]. split; [exact Hno |].
        intros w Hw. by inversion Hw.
      + simpl. split; [eauto |]. split; [exact Hno | discriminate]. }
    split; [exact H1 |]. split; [exact H2 |]. split; [exact H3 |]. eauto.
  - simpl. split; [eauto |]. split; [constructor |]. split; [discriminate |].
    intros [d Hd] [o Ho]. revert E.
    unfold Entry.entry, Entry.build_parser, Entry.environ_get.
    rewrite Hd, Ho. discriminate.
Qed.

Lemma script_never_completes_witness :
  ∃ args,
    Entry.entry {[ "dogImages" := "/data";
                   "TrainedModels/model.pth" := "/env/model.pth" ]}
                [Entry.GEpochs 2] = Ret args ∧
    script (T := Scripted.torch 2)
           {[ "dogImages" := "/data";
              "TrainedModels/model.pth" := "/env/model.pth" ]}
           [Entry.GEpochs 2] (Rig.libs 2)
    = main (Rig.libs 2) args [].
Proof.
  apply (proj2 (proj2 (proj2
    (script_never_completes (T := Scripted.torch 2)
       {[ "dogImages" := "/data";
          "TrainedModels/model.pth" := "/env/model.pth" ]}
       [Entry.GEpochs 2] (Rig.libs 2))))).
  - vm_compute. eauto.
  - vm_compute. eauto.
Defined.

(** ** The folders a run opens *)

(** X19: what [create_data_loaders] returns or raises does not depend on
    the [train] folder: two file systems that differ only in how folders
    rooted at [root/train] open give the same loaders or the same
    exception. *)
Theorem create_data_loaders_ignores_train_folder `{T : Torch}
    (G : gset string) (lib : libraries)
    (f : Data.image_folder → outcome (dataset lib))
    (data : string) (batch_size : option Z) :
  (∀ d, Data.root d ≠ Data.path_join data "train" → f d = open_folder lib d) →
  create_data_loaders_run G (reopen lib f) data batch_size
  = create_data_loaders_run G lib data batch_size.
Proof.
  intros Hf. unfold create_data_loaders_run, reopen. cbn [open_folder make_loader].
  rewrite !Hf; [reflexivity | | |]; simpl;
    first [ apply path_join_test_is_not_train
          | intros H; by apply path_join_literal_inj in H ].
Qed.

Lemma create_data_loaders_ignores_train_folder_witness :
  create_data_loaders_run (T := Scripted.torch 2) module_globals
    (reopen (Rig.libs 2)
       (λ d, if String.eqb (Data.root d) "/data/train"
             then Raise (RuntimeError "no such folder") else Ret d))
    "/data" (Some 4%Z)
  = create_data_loaders_run module_globals (Rig.libs 2) "/data" (Some 4%Z).
Proof.
  apply (create_data_loaders_ignores_train_folder (T := Scripted.torch 2)).
  intros d Hd. simpl.
  destruct (String.eqb (Data.root d) "/data/train") eqn:E; [| reflexivity].
  apply String.eqb_eq in E. by rewrite E in Hd.
Defined.
